(** * iOS-Media-Metadata-Forge: the two Flask back ends

    A shallow embedding of

    - [后端/实况部分后端处理/dt_app.py]  (live-photo pairing service, [Module DtApp]),
    - [后端/视频部分后端处理/app.py]      (video-only service, [Module App]).

    Python text is a list of Unicode code points.  A request handler is a
    computation in a small monad that threads the files on disk, the log of
    the external effects it performed and its two mutable locals, and that
    ends with a value, with a [return] or with a raised exception.  The
    outcome of every external action (saving an upload, running ffmpeg or
    exiftool, copying, zipping, the background deletion workers) is read
    from a [world]; the parts of the Python runtime whose tables are not
    part of the repository (Unicode case mapping, werkzeug's
    [secure_filename], [repr]) are a [Runtime] interface. *)

From Stdlib Require Import Ascii String DecimalString.
From Stdlib Require Import List NArith ZArith Bool Lia.
Import ListNotations.

Set Implicit Arguments.

(* ================================================================== *)
(** * Python text *)
(* ================================================================== *)

(** A Python [str]: its code points. *)
Definition str := list N.

(** Decoding of UTF-8 bytes, used only to write the literals of the
    source as they appear there. *)
Fixpoint utf8_decode (bs : list N) : str :=
  match bs with
  | [] => []
  | b :: r =>
      if (b <? 128)%N then b :: utf8_decode r
      else if (b <? 224)%N then
        match r with
        | b1 :: r1 => ((b - 192) * 64 + (b1 - 128))%N :: utf8_decode r1
        | [] => []
        end
      else if (b <? 240)%N then
        match r with
        | b1 :: b2 :: r2 =>
            ((b - 224) * 4096 + (b1 - 128) * 64 + (b2 - 128))%N :: utf8_decode r2
        | _ => []
        end
      else
        match r with
        | b1 :: b2 :: b3 :: r3 =>
            ((b - 240) * 262144 + (b1 - 128) * 4096 + (b2 - 128) * 64 + (b3 - 128))%N
              :: utf8_decode r3
        | _ => []
        end
  end.

(** A string literal of the source. *)
Definition lit (s : string) : str :=
  utf8_decode (map N_of_ascii (list_ascii_of_string s)).

Fixpoint str_eqb (a b : str) : bool :=
  match a, b with
  | [], [] => true
  | x :: a', y :: b' => (x =? y)%N && str_eqb a' b'
  | _, _ => false
  end.

(** [x in xs] for a collection of strings. *)
Definition mem (x : str) (xs : list str) : bool := existsb (str_eqb x) xs.

(** [bool(s)]: a string is true when it is not empty. *)
Definition truthy (s : str) : bool :=
  match s with [] => false | _ :: _ => true end.

(** [str.isspace] on one code point: the code points CPython's
    [Py_UNICODE_ISSPACE] accepts. *)
Definition isspace (c : N) : bool :=
  ((9 <=? c) && (c <=? 13) || (28 <=? c) && (c <=? 32)
   || (c =? 133) || (c =? 160) || (c =? 5760)
   || (8192 <=? c) && (c <=? 8202)
   || (c =? 8232) || (c =? 8233) || (c =? 8239) || (c =? 8287)
   || (c =? 12288))%N.

Fixpoint lstrip (s : str) : str :=
  match s with
  | [] => []
  | c :: r => if isspace c then lstrip r else s
  end.

Definition rstrip (s : str) : str := rev (lstrip (rev s)).

(** [s.strip()] *)
Definition strip (s : str) : str := rstrip (lstrip s).

(** [s[-k:]] for [k > 0]: the last [k] code points, all of [s] when it is
    shorter. *)
Definition last_chars (k : nat) (s : str) : str :=
  skipn (length s - k) s.

(** [s[:k]] *)
Definition first_chars (k : nat) (s : str) : str := firstn k s.

(** [sep.join(parts)] *)
Fixpoint join (sep : str) (parts : list str) : str :=
  match parts with
  | [] => []
  | [p] => p
  | p :: ps => p ++ sep ++ join sep ps
  end.

Definition dot : N := 46.

(** ["." in s] *)
Definition has_dot (s : str) : bool := existsb (N.eqb dot) s.

(** [s.rsplit(".", 1)]: [[s]] when [s] has no dot, else what is before
    the last dot and what is after it. *)
Fixpoint rsplit_dot (s : str) : list str :=
  match s with
  | [] => [[]]
  | c :: r =>
      match rsplit_dot r with
      | [h; t] => [c :: h; t]
      | [t] => if (c =? dot)%N then [[]; t] else [c :: t]
      | _ => [s]
      end
  end.

(** [str(n)] for a non-negative integer. *)
Definition decimal (n : N) : str :=
  map N_of_ascii (list_ascii_of_string (NilZero.string_of_uint (N.to_uint n))).

(** ASCII letters, the part of the case mapping that is fixed here. *)
Definition is_ascii (c : N) : bool := (c <? 128)%N.

Definition ascii_lower (c : N) : N :=
  if ((65 <=? c) && (c <=? 90))%N then (c + 32)%N else c.

Definition ascii_upper (c : N) : N :=
  if ((97 <=? c) && (c <=? 122))%N then (c - 32)%N else c.

(* ================================================================== *)
(** * The Python runtime and the libraries outside the repository *)
(* ================================================================== *)

(** [str.upper] and [str.lower] consult the Unicode database,
    [secure_filename] is werkzeug's, [repr] is the interpreter's: they are
    an interface here, with what CPython guarantees of the case mappings
    (a non-empty string stays non-empty, ASCII text is mapped by the
    ASCII tables).  [BASE_DIR] is [str(Path(__file__).parent)], the
    directory the service is deployed in. *)
Class Runtime : Type := {
  str_upper : str -> str;
  str_lower : str -> str;
  secure_filename : str -> str;
  py_repr : str -> str;
  BASE_DIR : str;
  str_upper_empty : forall s, str_upper s = [] <-> s = [];
  str_lower_ascii :
    forall s, forallb is_ascii s = true -> str_lower s = map ascii_lower s;
  str_upper_ascii :
    forall s, forallb is_ascii s = true -> str_upper s = map ascii_upper s
}.

(** [repr] of a list of strings. *)
Definition repr_list `{Runtime} (l : list str) : str :=
  lit "[" ++ join (lit ", ") (map py_repr l) ++ lit "]".

(* ================================================================== *)
(** * Requests, responses, exceptions *)
(* ================================================================== *)

(** [werkzeug.datastructures.FileStorage]; only the client's file name
    matters to the handlers ([""] also stands for a missing name). *)
Record FileStorage : Type := { filename : str }.

(** The multipart form of a request that Flask has parsed (its size is
    within [MAX_CONTENT_LENGTH]): [request.files] and [request.form], both
    multi-dicts, in the order the client sent the fields. *)
Record request : Type := {
  files : list (str * FileStorage);
  form : list (str * str)
}.

(** [d[key]] / [key in d] on a multi-dict: the first value of the key. *)
Fixpoint lookup (A : Type) (key : str) (d : list (str * A)) : option A :=
  match d with
  | [] => None
  | (k, v) :: r => if str_eqb key k then Some v else lookup key r
  end.

(** [[k for k, v in items if not v]] *)
Fixpoint missing_keys (items : list (str * str)) : list str :=
  match items with
  | [] => []
  | (k, v) :: r => if truthy v then missing_keys r else k :: missing_keys r
  end.

(** [request.form.get(key, default)] *)
Definition form_get (req : request) (key default : str) : str :=
  match lookup key (form req) with
  | Some v => v
  | None => default
  end.

Inductive exn : Type :=
| RuntimeError (msg : str)
| TimeoutExpired (cmd : list str) (timeout : N)
| OSError (msg : str)
| FileNotFoundError (path : str)
| IndexError.

(** [str(e)], as the f-strings of the handlers format an exception. *)
Definition str_exn `{Runtime} (e : exn) : str :=
  match e with
  | RuntimeError m => m
  | OSError m => m
  | TimeoutExpired c t =>
      lit "Command '" ++ repr_list c ++ lit "' timed out after "
        ++ decimal t ++ lit " seconds"
  | FileNotFoundError p =>
      lit "[Errno 2] No such file or directory: " ++ py_repr p
  | IndexError => lit "list index out of range"
  end.

(** What a view function hands back to Flask. *)
Inductive response : Type :=
| JsonError (error : str) (status : N)
    (* [jsonify({"error": error}), status] *)
| SendFile (path mimetype download_name : str).
    (* [send_file(path, mimetype=..., as_attachment=True, download_name=...)] *)

Definition status_of (r : response) : N :=
  match r with
  | JsonError _ s => s
  | SendFile _ _ _ => 200%N
  end.

(* ================================================================== *)
(** * External commands *)
(* ================================================================== *)

(** One element of a [cmd] list: a plain word, or an exiftool assignment
    [f"-{tag}={value}"]. *)
Inductive arg : Type :=
| Word (s : str)
| Assign (tag value : str).

Definition render (a : arg) : str :=
  match a with
  | Word s => s
  | Assign t v => lit "-" ++ t ++ lit "=" ++ v
  end.

(** The list of strings [subprocess.run] receives. *)
Definition argv (cmd : list arg) : list str := map render cmd.

(** The tag plan of a command: its assignments, in order. *)
Fixpoint assignments (cmd : list arg) : list (str * str) :=
  match cmd with
  | [] => []
  | Word _ :: r => assignments r
  | Assign t v :: r => (t, v) :: assignments r
  end.

(** The values a plan assigns to [tag], in the order exiftool applies
    them. *)
Definition values_of (tag : str) (cmd : list arg) : list str :=
  map snd (filter (fun tv => str_eqb tag (fst tv)) (assignments cmd)).

Inductive compression : Type := ZIP_STORED | ZIP_DEFLATED.

(* ================================================================== *)
(** * The world a request runs in *)
(* ================================================================== *)

(** Result of a file-system action: done, or [OSError] with its text and
    whether a (partial) file was left behind. *)
Inductive io_result : Type :=
| IoOk
| IoError (msg : str) (left_file : bool).

(** Result of [subprocess.run(cmd, capture_output=True, text=True,
    timeout=t)] for a tool that is installed: the process exited, or the
    timeout expired ([TimeoutExpired] carries what was captured until
    then).  [wrote] tells whether the tool left its output file (the last
    argument of the command) on disk. *)
Inductive proc_result : Type :=
| Exited (returncode : Z) (stdout stderr : str) (wrote : bool)
| TimedOut (stderr : str) (wrote : bool).

Record world : Type := {
  uuid4_hex : str;                          (* [uuid.uuid4().hex] *)
  save_result : str -> io_result;           (* [FileStorage.save(path)] *)
  run_result : list str -> proc_result;     (* by argv *)
  copy_result : str -> str -> io_result;    (* [shutil.copy2(src, dst)] *)
  zip_result : str -> io_result;            (* writing the archive *)
  worker_done : nat -> str -> bool
    (* whether the deletion worker started for a path has already removed
       it when the handler looks at the disk after that many effects *)
}.

(** The effects of a handler that are visible from outside. *)
Inductive event : Type :=
| Save (path : str)
| Run (cmd : list arg) (timeout : N)
| Copy2 (src dst : str)
| ZipWrite (path : str) (method : compression) (entries : list (str * str))
    (* a finished archive: its entries [(file, arcname)] in order *)
| ScheduleDelete (paths : list str) (delay : N).

(** A call registered with [after_this_request]. *)
Definition deferred : Type := (list str * N)%type.

Record state : Type := {
  disk : list str;              (* the files this request has written;
                                   a deletion worker may have removed
                                   one since, see [exists_now] *)
  log : list event;             (* newest first *)
  callbacks : list (list deferred);  (* newest first *)
  tmp_files : list str;         (* the handler's local [tmp_files] *)
  current_photo : str           (* the handler's local [current_photo] *)
}.

Definition init_state : state :=
  {| disk := []; log := []; callbacks := []; tmp_files := []; current_photo := [] |}.

(** The effects in the order they happened. *)
Definition trace (st : state) : list event := rev (log st).

Definition emit (e : event) (st : state) : state :=
  {| disk := disk st; log := e :: log st; callbacks := callbacks st;
     tmp_files := tmp_files st; current_photo := current_photo st |}.

(** [p :: l] when the action left its file behind. *)
Definition cons_if (b : bool) (p : str) (l : list str) : list str :=
  if b then p :: l else l.

Definition add_file_if (b : bool) (p : str) (st : state) : state :=
  {| disk := cons_if b p (disk st);
     log := log st; callbacks := callbacks st;
     tmp_files := tmp_files st; current_photo := current_photo st |}.

Definition add_file (p : str) (st : state) : state :=
  {| disk := p :: disk st;
     log := log st; callbacks := callbacks st;
     tmp_files := tmp_files st; current_photo := current_photo st |}.

(** [l.append(x)] *)
Fixpoint append (l : list str) (x : str) : list str :=
  match l with
  | [] => [x]
  | y :: r => y :: append r x
  end.

(** Whether a delay-0 deletion of [p] has been scheduled so far. *)
Definition scheduled_now (p : str) (l : list event) : bool :=
  existsb (fun e => match e with
                    | ScheduleDelete ps 0%N => mem p ps
                    | _ => false
                    end) l.

(** [os.path.exists(p)] for a path of this request: the request has
    written the file, and no deletion worker started for it has run yet
    (the workers are threads of their own: whether one has run by now is
    the world's say). *)
Definition exists_now (w : world) (st : state) (p : str) : bool :=
  mem p (disk st)
  && negb (scheduled_now p (log st) && worker_done w (length (log st)) p).

(* ================================================================== *)
(** * The handler monad *)
(* ================================================================== *)

Inductive outcome (A : Type) : Type :=
| Value (a : A)
| Return (r : response)
| Raise (e : exn).

Arguments Return {A} r.
Arguments Raise {A} e.

Definition M (A : Type) : Type := state -> outcome A * state.

Definition ret (A : Type) (a : A) : M A := fun st => (Value a, st).

Definition bind (A B : Type) (m : M A) (k : A -> M B) : M B :=
  fun st =>
    match m st with
    | (Value a, st') => k a st'
    | (Return r, st') => (Return r, st')
    | (Raise e, st') => (Raise e, st')
    end.

Notation "x <- m ;; k" := (bind m (fun x => k))
  (at level 61, m at next level, right associativity).
Notation "m ;; k" := (bind m (fun _ => k))
  (at level 61, right associativity).

(** [return r] *)
Definition return_ {A : Type} (r : response) : M A := fun st => (Return r, st).

(** [raise e] *)
Definition raise {A : Type} (e : exn) : M A := fun st => (Raise e, st).

(** [try: body / except ...: handler]; [handler e = None] when no clause
    matches [e]. *)
Definition try_except (A : Type) (body : M A) (handler : exn -> option (M A)) : M A :=
  fun st =>
    match body st with
    | (Raise e, st') =>
        match handler e with
        | Some h => h st'
        | None => (Raise e, st')
        end
    | other => other
    end.

(** [try: body / finally: fin]: [fin] runs whatever [body] did, and the
    outcome of [body] stands unless [fin] itself returns or raises. *)
Definition try_finally (A : Type) (body : M A) (fin : M unit) : M A :=
  fun st =>
    match body st with
    | (o, st') =>
        match fin st' with
        | (Value _, st'') => (o, st'')
        | (Return r, st'') => (Return r, st'')
        | (Raise e, st'') => (Raise e, st'')
        end
    end.

Definition get_state : M state := fun st => (Value st, st).

Definition modify (f : state -> state) : M unit := fun st => (Value tt, f st).

Definition set_tmp_files (l : list str) (st : state) : state :=
  {| disk := disk st; log := log st; callbacks := callbacks st;
     tmp_files := l; current_photo := current_photo st |}.

Definition set_current_photo (p : str) (st : state) : state :=
  {| disk := disk st; log := log st; callbacks := callbacks st;
     tmp_files := tmp_files st; current_photo := p |}.

Definition add_callback (c : list deferred) (st : state) : state :=
  {| disk := disk st; log := log st; callbacks := c :: callbacks st;
     tmp_files := tmp_files st; current_photo := current_photo st |}.

(** [subprocess.CompletedProcess] *)
Record CompletedProcess : Type := {
  returncode : Z;
  stdout : str;
  stderr : str
}.

(* ================================================================== *)
(** * The primitives the handlers call *)
(* ================================================================== *)

Section Primitives.

Context {rt : Runtime} (w : world).

(** [file.save(path)] *)
Definition file_save (path : str) : M unit :=
  fun st =>
    let st1 := emit (Save path) st in
    match save_result w path with
    | IoOk => (Value tt, add_file path st1)
    | IoError msg lf =>
        (Raise (OSError msg), add_file_if lf path st1)
    end.

(** [os.path.getsize(path)], for its exception only: the size goes to
    the log file. *)
Definition getsize (path : str) : M unit :=
  fun st =>
    if exists_now w st path then (Value tt, st)
    else (Raise (FileNotFoundError path), st).

(** [subprocess.run(cmd, capture_output=True, text=True, timeout=t)] *)
Definition subprocess_run (cmd : list arg) (timeout : N) : M CompletedProcess :=
  fun st =>
    let st1 := emit (Run cmd timeout) st in
    let output := last (argv cmd) [] in
    match run_result w (argv cmd) with
    | Exited rc so se wrote =>
        (Value {| returncode := rc; stdout := so; stderr := se |},
         add_file_if wrote output st1)
    | TimedOut se wrote =>
        (Raise (TimeoutExpired (argv cmd) timeout),
         add_file_if wrote output st1)
    end.

(** [shutil.copy2(src, dst)] *)
Definition copy2 (src dst : str) : M unit :=
  fun st =>
    let st1 := emit (Copy2 src dst) st in
    if exists_now w st src then
      match copy_result w src dst with
      | IoOk => (Value tt, add_file dst st1)
      | IoError msg lf =>
          (Raise (OSError msg), add_file_if lf dst st1)
      end
    else (Raise (FileNotFoundError src), st1).

(** [with zipfile.ZipFile(path, "w", method) as zf: zf.write(file,
    arcname=name) ...], for the [entries] [(file, name)] in order. *)
Definition zip_write (path : str) (method : compression)
    (entries : list (str * str)) : M unit :=
  fun st =>
    match zip_result w path with
    | IoError msg lf =>
        (Raise (OSError msg), add_file_if lf path st)
    | IoOk =>
        let st1 := add_file path st in
        match filter (fun e => negb (exists_now w st (fst e))) entries with
        | [] => (Value tt, emit (ZipWrite path method entries) st1)
        | (f, _) :: _ => (Raise (FileNotFoundError f), st1)
        end
    end.

(** [after_this_request(f)], [f] being the calls of [schedule_delete]
    it makes. *)
Definition after_this_request (calls : list deferred) : M unit :=
  modify (add_callback calls).

(** Flask runs the registered callbacks once the response is built. *)
Definition run_callback (c : list deferred) (st : state) : state :=
  fold_left (fun s d => emit (ScheduleDelete (fst d) (snd d)) s) c st.

Definition run_callbacks (st : state) : state :=
  fold_right run_callback st (callbacks st).

(** Flask around a view function: an exception that leaves the view is
    answered by the [errorhandler(500)] of the application. *)
Definition dispatch (err_server : response) (view : M response) : response * state :=
  match view init_state with
  | (Value r, st) => (r, run_callbacks st)
  | (Return r, st) => (r, run_callbacks st)
  | (Raise _, st) => (err_server, run_callbacks st)
  end.

End Primitives.

(* ================================================================== *)
(** * The deletion worker *)
(* ================================================================== *)

(** [schedule_delete] of either service starts a daemon thread running
    its nested [_worker]: after [time.sleep(delay)] the worker removes the
    paths one by one.  The directory is the list of the files in it.  What
    [os.remove] raises for a file that is there (a permission error, a
    directory in place of the file) is the say of [remove_error], asked
    anew at every step of the loop: [remove_error i] is the error of the
    removal tried at step [i], [None] when it succeeds. *)

(** What the worker writes to the log file. *)
Inductive log_record : Type :=
| LogInfo (path : str)            (* [log.info("已清理：%s", p)] *)
| LogWarning (path msg : str).    (* [log.warning("清理失败 %s：%s", p, e)] *)

(** The directory once [os.remove(p)] has succeeded. *)
Definition os_remove (p : str) (fs : list str) : list str :=
  filter (fun q => negb (str_eqb p q)) fs.

(** The loop of [_worker] over [paths]: the directory it leaves and the
    records it logs.  A path that is not there raises
    [FileNotFoundError], which is passed over in silence; any other
    [OSError] is logged as a warning, and the loop goes on. *)
Fixpoint _worker (remove_error : nat -> option str) (paths fs : list str)
    : list str * list log_record :=
  match paths with
  | [] => (fs, [])
  | p :: rest =>
      let later := fun i => remove_error (S i) in
      if mem p fs then
        match remove_error 0 with
        | None =>
            let (fs', l) := _worker later rest (os_remove p fs) in
            (fs', LogInfo p :: l)
        | Some msg =>
            let (fs', l) := _worker later rest fs in
            (fs', LogWarning p msg :: l)
        end
      else _worker later rest fs
  end.

(* ================================================================== *)
(** * dt_app.py: the live-photo pairing service *)
(* ================================================================== *)

Module DtApp.

Section Service.

Context {rt : Runtime} (w : world).

Definition UPLOAD_DIR : str := BASE_DIR ++ lit "/uploads_dt".

Definition ALLOWED_VIDEO_EXT : list str := [lit "mp4"; lit "mov"].

Definition ALLOWED_IMAGE_EXT : list str :=
  [lit "jpg"; lit "jpeg"; lit "png"; lit "heic"; lit "heif"; lit "webp"].

Definition CLEANUP_DELAY_SEC : N := 300.

(** [str(UPLOAD_DIR / name)] *)
Definition upload_path (name : str) : str := UPLOAD_DIR ++ lit "/" ++ name.

Definition allowed_video (filename : str) : bool :=
  has_dot filename
  && match nth_error (rsplit_dot filename) 1 with
     | Some e => mem (str_lower e) ALLOWED_VIDEO_EXT
     | None => false
     end.

Definition allowed_image (filename : str) : bool :=
  has_dot filename
  && match nth_error (rsplit_dot filename) 1 with
     | Some e => mem (str_lower e) ALLOWED_IMAGE_EXT
     | None => false
     end.

(** [schedule_delete(p1, p2, ..., delay=delay)]: starts the daemon thread that
    sleeps [delay] seconds and then removes the paths. *)
Definition schedule_delete (paths : list str) (delay : N) : M unit :=
  modify (emit (ScheduleDelete paths delay)).

Definition remux_cmd (src out : str) : list arg :=
  [ Word (lit "ffmpeg"); Word (lit "-y");
    Word (lit "-i"); Word src;
    Word (lit "-map"); Word (lit "0");
    Word (lit "-c"); Word (lit "copy");
    Word (lit "-ignore_unknown");
    Word (lit "-movflags"); Word (lit "+faststart+use_metadata_tags");
    Word out ].

Definition remux_to_mov (src out : str) : M unit :=
  r <- subprocess_run w (remux_cmd src out) 300 ;;
  if negb (returncode r =? 0)%Z then
    let err := last_chars 1000 (stderr r) in
    raise (RuntimeError (lit "FFmpeg 重封装失败：" ++ last_chars 300 err))
  else
    getsize w out.

Definition video_cmd (filepath make model date asset_id : str) : list arg :=
  [ Word (lit "exiftool");
    Word (lit "-overwrite_original");
    Word (lit "-P");

    Assign (lit "QuickTime:HandlerName") [];
    Assign (lit "QuickTime:VideoHandlerName") [];
    Assign (lit "QuickTime:AudioHandlerName") [];
    Assign (lit "QuickTime:Encoder") [];

    Assign (lit "QuickTime:HandlerName") (lit "Core Media Video");
    Assign (lit "QuickTime:VideoHandlerName") (lit "Core Media Video");
    Assign (lit "QuickTime:AudioHandlerName") (lit "Core Media Audio");

    Assign (lit "QuickTime:Make") make;
    Assign (lit "QuickTime:Model") model;
    Assign (lit "Keys:Make") make;
    Assign (lit "Keys:Model") model;
    Assign (lit "UserData:Make") make;
    Assign (lit "UserData:Model") model;
    Assign (lit "com.apple.quicktime.make") make;
    Assign (lit "com.apple.quicktime.model") model;

    Assign (lit "QuickTime:CreationDate") date;
    Assign (lit "com.apple.quicktime.creationdate") date;
    Assign (lit "CreateDate") date;
    Assign (lit "DateTimeOriginal") date;
    Assign (lit "TrackCreateDate") date;
    Assign (lit "MediaCreateDate") date;

    Assign (lit "ContentIdentifier") asset_id;
    Assign (lit "Keys:ContentIdentifier") asset_id;
    Assign (lit "com.apple.quicktime.content.identifier") asset_id;
    Assign (lit "Keys:StillImageTime") (lit "0");

    Word filepath ].

Definition inject_video_metadata (filepath make model date asset_id : str) : M unit :=
  r <- subprocess_run w (video_cmd filepath make model date asset_id) 60 ;;
  if negb (returncode r =? 0)%Z then
    raise (RuntimeError (lit "ExifTool 视频注入失败：" ++ last_chars 200 (stderr r)))
  else ret tt.

Definition image_cmd (filepath make model date asset_id
    aperture focal focal35 iso lens width height : str) : list arg :=
  [ Word (lit "exiftool");
    Word (lit "-overwrite_original");
    Word (lit "-P");

    Assign (lit "Make") make;
    Assign (lit "Model") model;
    Assign (lit "DateTime") date;
    Assign (lit "DateTimeOriginal") date;
    Assign (lit "CreateDate") date;

    Assign (lit "LensModel") lens;
    Assign (lit "FNumber") aperture;
    Assign (lit "FocalLength") focal;
    Assign (lit "FocalLengthIn35mmFormat") focal35;
    Assign (lit "ISO") iso;
    Assign (lit "ExifImageWidth") width;
    Assign (lit "ExifImageHeight") height;

    Assign (lit "CustomRendered") (lit "6");

    Assign (lit "Apple:ContentIdentifier") asset_id;
    Assign (lit "XMP-apple-fi:ContentIdentifier") asset_id;
    Assign (lit "XMP:ContentIdentifier") asset_id;

    Word filepath ].

Definition inject_image_metadata (filepath make model date asset_id
    aperture focal focal35 iso lens width height : str) : M unit :=
  r <- subprocess_run w
         (image_cmd filepath make model date asset_id
            aperture focal focal35 iso lens width height) 60 ;;
  if negb (returncode r =? 0)%Z then
    raise (RuntimeError (lit "ExifTool 图片注入失败：" ++ last_chars 200 (stderr r)))
  else ret tt.

(** [secure_filename(name).rsplit(".", 1)[1].lower()] *)
Definition secure_ext (name : str) : M str :=
  match nth_error (rsplit_dot (secure_filename name)) 1 with
  | Some e => ret (str_lower e)
  | None => raise IndexError
  end.

(** The nested [cleanup_all(delay)] of [process_live]. *)
Definition cleanup_all (delay : N) : M unit :=
  st <- get_state ;;
  schedule_delete (filter (exists_now w st) (tmp_files st)) delay.

Definition conv_cmd (src_photo converted : str) : list arg :=
  [ Word (lit "ffmpeg"); Word (lit "-y"); Word (lit "-i"); Word src_photo;
    Word (lit "-q:v"); Word (lit "1"); Word converted ].

Definition process_live (req : request) : M response :=
  (* 1. the file fields *)
  match lookup (lit "photo") (files req), lookup (lit "video") (files req) with
  | Some photo_file, Some video_file =>
  if negb (truthy (filename photo_file)) || negb (truthy (filename video_file)) then
    return_ (JsonError (lit "文件名不能为空") 400)
  else if negb (allowed_image (filename photo_file)) then
    return_ (JsonError (lit "图片仅支持 jpg/jpeg/png/heic/heif/webp") 400)
  else if negb (allowed_video (filename video_file)) then
    return_ (JsonError (lit "视频仅支持 mp4/mov") 400)
  else
  (* 2. the required parameters *)
  let make := strip (form_get req (lit "make") []) in
  let model := strip (form_get req (lit "model") []) in
  let date := strip (form_get req (lit "date") []) in
  let asset_id := str_upper (strip (form_get req (lit "asset_id") [])) in
  let missing :=
    missing_keys
      [ (lit "make", make); (lit "model", model);
        (lit "date", date); (lit "asset_id", asset_id) ] in
  match missing with
  | _ :: _ =>
    return_ (JsonError (lit "缺少必填参数：" ++ join (lit ", ") missing) 400)
  | [] =>
  let aperture := strip (form_get req (lit "aperture") (lit "1.78")) in
  let focal := strip (form_get req (lit "focal") (lit "24")) in
  let focal35 := strip (form_get req (lit "focal35") (lit "24")) in
  let iso := strip (form_get req (lit "iso") (lit "100")) in
  let lens := strip (form_get req (lit "lens") (model ++ lit " 后置摄像头")) in
  let width := strip (form_get req (lit "width") (lit "4032")) in
  let height := strip (form_get req (lit "height") (lit "3024")) in
  (* 3. the working paths *)
  let uid := uuid4_hex w in
  photo_ext <- secure_ext (filename photo_file) ;;
  video_ext <- secure_ext (filename video_file) ;;
  let src_photo := upload_path (lit "src_photo_" ++ uid ++ lit "." ++ photo_ext) in
  let src_video := upload_path (lit "src_video_" ++ uid ++ lit "." ++ video_ext) in
  let out_photo := upload_path (lit "out_photo_" ++ uid ++ lit ".jpg") in
  let out_video := upload_path (lit "out_video_" ++ uid ++ lit ".mov") in
  let out_zip := upload_path (lit "live_" ++ uid ++ lit ".zip") in
  modify (set_tmp_files [src_photo; src_video; out_photo; out_video; out_zip]) ;;
  (* 4. save the uploads *)
  try_except
    (file_save w src_photo ;;
     file_save w src_video ;;
     getsize w src_photo ;;
     getsize w src_video)
    (fun e =>
       match e with
       | OSError _ | FileNotFoundError _ =>
           Some (cleanup_all 0 ;;
                 return_ (JsonError (lit "文件保存失败：" ++ str_exn e) 500))
       | _ => None
       end) ;;
  (* 5. convert the photo unless it is a JPEG *)
  modify (set_current_photo src_photo) ;;
  try_finally
    (try_except
       ((if negb (mem photo_ext [lit "jpg"; lit "jpeg"]) then
           let converted := upload_path (lit "conv_photo_" ++ uid ++ lit ".jpg") in
           modify (fun st => set_tmp_files (append (tmp_files st) converted) st) ;;
           r <- subprocess_run w (conv_cmd src_photo converted) 60 ;;
           (if negb (returncode r =? 0)%Z then
              raise (RuntimeError
                       (lit "图片格式转换失败：" ++ last_chars 200 (stderr r)))
            else ret tt) ;;
           schedule_delete [src_photo] 0 ;;
           modify (set_current_photo converted)
         else ret tt) ;;
        st <- get_state ;;
        copy2 w (current_photo st) out_photo)
       (fun e =>
          match e with
          | RuntimeError _ =>
              Some (cleanup_all 0 ;; return_ (JsonError (str_exn e) 500))
          | _ => None
          end))
    (st <- get_state ;;
     if negb (str_eqb (current_photo st) out_photo)
        && exists_now w st (current_photo st)
     then schedule_delete [current_photo st] 0
     else ret tt) ;;
  (* 6. remux the video *)
  try_finally
    (try_except
       (remux_to_mov src_video out_video)
       (fun e =>
          match e with
          | RuntimeError _ =>
              Some (cleanup_all 0 ;; return_ (JsonError (str_exn e) 500))
          | TimeoutExpired _ _ =>
              Some (cleanup_all 0 ;;
                    return_ (JsonError (lit "FFmpeg 处理超时（>5 分钟）") 500))
          | _ => None
          end))
    (schedule_delete [src_video] 0) ;;
  (* 7. image metadata *)
  try_except
    (inject_image_metadata out_photo make model date asset_id
       aperture focal focal35 iso lens width height)
    (fun e =>
       match e with
       | RuntimeError _ | TimeoutExpired _ _ =>
           Some (cleanup_all 0 ;;
                 return_ (JsonError (lit "图片处理失败：" ++ str_exn e) 500))
       | _ => None
       end) ;;
  (* 8. video metadata *)
  try_except
    (inject_video_metadata out_video make model date asset_id)
    (fun e =>
       match e with
       | RuntimeError _ | TimeoutExpired _ _ =>
           Some (cleanup_all 0 ;;
                 return_ (JsonError (lit "视频处理失败：" ++ str_exn e) 500))
       | _ => None
       end) ;;
  (* 9. the archive *)
  try_except
    (zip_write w out_zip ZIP_STORED
       [ (out_photo, lit "IMG_LIVE.JPG"); (out_video, lit "IMG_LIVE.MOV") ] ;;
     getsize w out_zip)
    (fun e =>
       match e with
       | OSError _ | FileNotFoundError _ =>
           Some (cleanup_all 0 ;;
                 return_ (JsonError (lit "ZIP 打包失败：" ++ str_exn e) 500))
       | _ => None
       end) ;;
  (* 10. deferred cleanup, 11. the answer *)
  after_this_request [ ([out_photo; out_video], 0%N); ([out_zip], CLEANUP_DELAY_SEC) ] ;;
  ret (SendFile out_zip (lit "application/zip")
         (lit "LivePhoto_" ++ first_chars 8 uid ++ lit ".zip"))
  end
  | _, _ =>
    return_ (JsonError (lit "需要同时上传 photo 和 video 字段") 400)
  end.

(** [@app.errorhandler(500)] *)
Definition err_server : response := JsonError (lit "服务器内部错误") 500.

(** One request served: the response and the final state. *)
Definition serve (req : request) : response * state :=
  dispatch err_server (process_live req).

End Service.

End DtApp.

(* ================================================================== *)
(** * app.py: the video-only service *)
(* ================================================================== *)

Module App.

Section Service.

Context {rt : Runtime} (w : world).

Definition UPLOAD_DIR : str := BASE_DIR ++ lit "/uploads".

Definition ALLOWED_EXTENSIONS : list str := [lit "mp4"; lit "mov"].

Definition CLEANUP_DELAY_SEC : N := 300.

(** [str(UPLOAD_DIR / name)] *)
Definition upload_path (name : str) : str := UPLOAD_DIR ++ lit "/" ++ name.

Definition allowed_file (filename : str) : bool :=
  has_dot filename
  && match nth_error (rsplit_dot filename) 1 with
     | Some e => mem (str_lower e) ALLOWED_EXTENSIONS
     | None => false
     end.

Definition schedule_delete (paths : list str) (delay : N) : M unit :=
  modify (emit (ScheduleDelete paths delay)).

Definition remux_cmd (src out : str) : list arg :=
  [ Word (lit "ffmpeg"); Word (lit "-y");
    Word (lit "-i"); Word src;
    Word (lit "-map"); Word (lit "0");
    Word (lit "-c"); Word (lit "copy");
    Word (lit "-ignore_unknown");
    Word (lit "-movflags"); Word (lit "+faststart+use_metadata_tags");
    Word out ].

Definition remux_to_mov (src out : str) : M unit :=
  r <- subprocess_run w (remux_cmd src out) 300 ;;
  if negb (returncode r =? 0)%Z then
    let err := last_chars 1000 (stderr r) in
    raise (RuntimeError (lit "FFmpeg 重封装失败：" ++ last_chars 300 err))
  else
    getsize w out.

Definition metadata_cmd (filepath make model date : str) : list arg :=
  [ Word (lit "exiftool");
    Word (lit "-overwrite_original");
    Word (lit "-P");

    Assign (lit "QuickTime:HandlerName") [];
    Assign (lit "QuickTime:VideoHandlerName") [];
    Assign (lit "QuickTime:AudioHandlerName") [];
    Assign (lit "QuickTime:Encoder") [];

    Assign (lit "QuickTime:HandlerName") (lit "Core Media Video");
    Assign (lit "QuickTime:VideoHandlerName") (lit "Core Media Video");
    Assign (lit "QuickTime:AudioHandlerName") (lit "Core Media Audio");

    Assign (lit "QuickTime:Make") make;
    Assign (lit "QuickTime:Model") model;
    Assign (lit "Keys:Make") make;
    Assign (lit "Keys:Model") model;
    Assign (lit "UserData:Make") make;
    Assign (lit "UserData:Model") model;
    Assign (lit "com.apple.quicktime.make") make;
    Assign (lit "com.apple.quicktime.model") model;

    Assign (lit "QuickTime:CreationDate") date;
    Assign (lit "com.apple.quicktime.creationdate") date;
    Assign (lit "CreateDate") date;
    Assign (lit "DateTimeOriginal") date;
    Assign (lit "TrackCreateDate") date;
    Assign (lit "MediaCreateDate") date;

    Word filepath ].

Definition inject_metadata (filepath make model date : str) : M unit :=
  r <- subprocess_run w (metadata_cmd filepath make model date) 60 ;;
  if negb (returncode r =? 0)%Z then
    raise (RuntimeError (lit "ExifTool 注入失败：" ++ last_chars 200 (stderr r)))
  else ret tt.

(** [secure_filename(name).rsplit(".", 1)[1].lower()] *)
Definition secure_ext (name : str) : M str :=
  match nth_error (rsplit_dot (secure_filename name)) 1 with
  | Some e => ret (str_lower e)
  | None => raise IndexError
  end.

Definition process_video (req : request) : M response :=
  (* 1. the file *)
  match lookup (lit "file") (files req) with
  | None => return_ (JsonError (lit "缺少 file 字段") 400)
  | Some file =>
  if negb (truthy (filename file)) then
    return_ (JsonError (lit "未选择文件") 400)
  else if negb (allowed_file (filename file)) then
    return_ (JsonError (lit "仅支持 mp4 / mov 格式") 400)
  else
  (* 2. the parameters *)
  let make := strip (form_get req (lit "make") []) in
  let model := strip (form_get req (lit "model") []) in
  let date := strip (form_get req (lit "date") []) in
  let missing :=
    missing_keys
      [ (lit "make", make); (lit "model", model); (lit "date", date) ] in
  match missing with
  | _ :: _ =>
    return_ (JsonError (lit "缺少必填参数：" ++ join (lit ", ") missing) 400)
  | [] =>
  (* 3. save the upload *)
  let uid := uuid4_hex w in
  src_ext <- secure_ext (filename file) ;;
  let src := upload_path (lit "src_" ++ uid ++ lit "." ++ src_ext) in
  let out := upload_path (lit "out_" ++ uid ++ lit ".mov") in
  try_except
    (file_save w src ;;
     getsize w src)
    (fun e =>
       match e with
       | OSError _ | FileNotFoundError _ =>
           Some (return_ (JsonError (lit "文件保存失败：" ++ str_exn e) 500))
       | _ => None
       end) ;;
  (* 4. remux *)
  try_finally
    (try_except
       (remux_to_mov src out)
       (fun e =>
          match e with
          | RuntimeError _ => Some (return_ (JsonError (str_exn e) 500))
          | TimeoutExpired _ _ =>
              Some (return_ (JsonError (lit "FFmpeg 处理超时（>5 分钟）") 500))
          | _ => None
          end))
    (schedule_delete [src] 0) ;;
  (* 5. metadata *)
  try_except
    (inject_metadata out make model date)
    (fun e =>
       match e with
       | RuntimeError _ =>
           Some (schedule_delete [out] 0 ;; return_ (JsonError (str_exn e) 500))
       | TimeoutExpired _ _ =>
           Some (schedule_delete [out] 0 ;;
                 return_ (JsonError (lit "ExifTool 处理超时") 500))
       | _ => None
       end) ;;
  (* 6. deferred cleanup, 7. the answer *)
  after_this_request [ ([out], CLEANUP_DELAY_SEC) ] ;;
  ret (SendFile out (lit "video/quicktime")
         (lit "processed_" ++ uid ++ lit ".mov"))
  end
  end.

(** [@app.errorhandler(500)] *)
Definition err_server : response := JsonError (lit "服务器内部错误") 500.

(** One request served: the response and the final state. *)
Definition serve (req : request) : response * state :=
  dispatch err_server (process_video req).

End Service.

End App.

(* ================================================================== *)
(** * A runtime for ASCII text *)
(* ================================================================== *)

(** On text made of ASCII code points the case mappings are the ASCII
    ones, and [secure_filename] reduces to the steps below (its Unicode
    normalisation has nothing to decompose).  This runtime serves the
    closed examples, all of which are ASCII requests. *)

(** [s.split()]: the maximal runs without white space. *)
Fixpoint split_ws_aux (cur : str) (s : str) : list str :=
  match s with
  | [] => match cur with [] => [] | _ => [rev cur] end
  | c :: r =>
      if isspace c then
        match cur with
        | [] => split_ws_aux [] r
        | _ => rev cur :: split_ws_aux [] r
        end
      else split_ws_aux (c :: cur) r
  end.

Definition split_ws (s : str) : list str := split_ws_aux [] s.

(** The characters [_filename_ascii_strip_re] keeps: [A-Za-z0-9_.-]. *)
Definition filename_char (c : N) : bool :=
  ((65 <=? c) && (c <=? 90) || (97 <=? c) && (c <=? 122)
   || (48 <=? c) && (c <=? 57) || (c =? 95) || (c =? 46) || (c =? 45))%N.

Fixpoint lstrip_chars (cs : list N) (s : str) : str :=
  match s with
  | [] => []
  | c :: r => if existsb (N.eqb c) cs then lstrip_chars cs r else s
  end.

(** [s.strip(chars)] *)
Definition strip_chars (cs : list N) (s : str) : str :=
  rev (lstrip_chars cs (rev (lstrip_chars cs s))).

Definition ascii_secure_filename (name : str) : str :=
  let ascii := filter is_ascii name in
  let no_sep := map (fun c => if (c =? 47)%N then 32%N else c) ascii in
  let joined := join (lit "_") (split_ws no_sep) in
  strip_chars [46%N; 95%N] (filter filename_char joined).

(** [repr(s)] for text without quotes, backslashes or control
    characters. *)
Definition ascii_repr (s : str) : str := lit "'" ++ s ++ lit "'".

Lemma map_empty_iff (f : N -> N) (s : str) : map f s = [] <-> s = [].
Proof.
  destruct s; simpl; split; intro H; try reflexivity; discriminate H.
Qed.

Definition ascii_runtime (base : str) : Runtime :=
  {| str_upper := map ascii_upper;
     str_lower := map ascii_lower;
     secure_filename := ascii_secure_filename;
     py_repr := ascii_repr;
     BASE_DIR := base;
     str_upper_empty := map_empty_iff ascii_upper;
     str_lower_ascii := fun s _ => eq_refl;
     str_upper_ascii := fun s _ => eq_refl |}.

(* ================================================================== *)
(** * What a pairing request asks for *)
(* ================================================================== *)

(** The values [process_live] binds from the form and the paths it
    derives from the request id, named so that statements can refer to
    them. *)
Section LiveRequest.

Context {rt : Runtime} (w : world) (req : request).

Definition live_make : str := strip (form_get req (lit "make") []).
Definition live_model : str := strip (form_get req (lit "model") []).
Definition live_date : str := strip (form_get req (lit "date") []).
Definition live_asset_id : str :=
  str_upper (strip (form_get req (lit "asset_id") [])).

Definition live_src_photo (photo_ext : str) : str :=
  DtApp.upload_path (lit "src_photo_" ++ uuid4_hex w ++ lit "." ++ photo_ext).
Definition live_src_video (video_ext : str) : str :=
  DtApp.upload_path (lit "src_video_" ++ uuid4_hex w ++ lit "." ++ video_ext).
Definition live_converted : str :=
  DtApp.upload_path (lit "conv_photo_" ++ uuid4_hex w ++ lit ".jpg").
Definition live_out_photo : str :=
  DtApp.upload_path (lit "out_photo_" ++ uuid4_hex w ++ lit ".jpg").
Definition live_out_video : str :=
  DtApp.upload_path (lit "out_video_" ++ uuid4_hex w ++ lit ".mov").
Definition live_out_zip : str :=
  DtApp.upload_path (lit "live_" ++ uuid4_hex w ++ lit ".zip").

(** The exiftool command of step 7. *)
Definition live_image_cmd : list arg :=
  DtApp.image_cmd live_out_photo live_make live_model live_date live_asset_id
    (strip (form_get req (lit "aperture") (lit "1.78")))
    (strip (form_get req (lit "focal") (lit "24")))
    (strip (form_get req (lit "focal35") (lit "24")))
    (strip (form_get req (lit "iso") (lit "100")))
    (strip (form_get req (lit "lens") (live_model ++ lit " 后置摄像头")))
    (strip (form_get req (lit "width") (lit "4032")))
    (strip (form_get req (lit "height") (lit "3024"))).

(** The exiftool command of step 8. *)
Definition live_video_cmd : list arg :=
  DtApp.video_cmd live_out_video live_make live_model live_date live_asset_id.

End LiveRequest.

Section VideoRequest.

Context {rt : Runtime} (w : world) (req : request).

Definition video_src (src_ext : str) : str :=
  App.upload_path (lit "src_" ++ uuid4_hex w ++ lit "." ++ src_ext).
Definition video_out : str :=
  App.upload_path (lit "out_" ++ uuid4_hex w ++ lit ".mov").

(** The exiftool command of step 5. *)
Definition video_metadata_cmd : list arg :=
  App.metadata_cmd video_out
    (strip (form_get req (lit "make") []))
    (strip (form_get req (lit "model") []))
    (strip (form_get req (lit "date") [])).

End VideoRequest.

(* ================================================================== *)
(** * Vocabulary of the statements *)
(* ================================================================== *)

(** The last component of a tag name, in lower case: what follows the
    last [:] or [.] of [QuickTime:Make], [com.apple.quicktime.make]. *)
Fixpoint last_component (cur : str) (tag : str) : str :=
  match tag with
  | [] => rev cur
  | c :: r =>
      if ((c =? 58) || (c =? 46))%N then last_component [] r
      else last_component (ascii_lower c :: cur) r
  end.

Definition tag_field (tag : str) : str := last_component [] tag.

Fixpoint starts_with (p s : str) : bool :=
  match p, s with
  | [], _ => true
  | x :: p', y :: s' => (x =? y)%N && starts_with p' s'
  | _ :: _, [] => false
  end.

(** [needle in hay] *)
Fixpoint contains (needle hay : str) : bool :=
  starts_with needle hay
  || match hay with
     | [] => false
     | _ :: r => contains needle r
     end.

(** The entries of a plan whose tag satisfies [p]. *)
Definition entries_where (p : str -> bool) (cmd : list arg) : list (str * str) :=
  filter (fun tv => p (fst tv)) (assignments cmd).

(** The handler names a remux by ffmpeg leaves in the container: the
    docstring of [inject_metadata] names ["VideoHandler"]; the audio
    track gets ["SoundHandler"]. *)
Definition FFMPEG_HANDLER_NAMES : list str :=
  [lit "VideoHandler"; lit "SoundHandler"].

(** The documented locations of the pairing identifier. *)
Definition IMAGE_ID_TAGS : list str :=
  [ lit "Apple:ContentIdentifier";
    lit "XMP-apple-fi:ContentIdentifier";
    lit "XMP:ContentIdentifier" ].

Definition VIDEO_ID_TAGS : list str :=
  [ lit "ContentIdentifier";
    lit "Keys:ContentIdentifier";
    lit "com.apple.quicktime.content.identifier" ].

(** The optional shot parameters: form field, exiftool tag, default of
    the docstring of [process_live]. *)
Definition SHOT_PARAMETERS : list (str * str * str) :=
  [ (lit "aperture", lit "FNumber", lit "1.78");
    (lit "focal", lit "FocalLength", lit "24");
    (lit "focal35", lit "FocalLengthIn35mmFormat", lit "24");
    (lit "iso", lit "ISO", lit "100");
    (lit "width", lit "ExifImageWidth", lit "4032");
    (lit "height", lit "ExifImageHeight", lit "3024") ].

Definition LENS_TAG : str := lit "LensModel".

(** What [process_live] appends to the model for the default lens
    description. *)
Definition LENS_SUFFIX : str := lit " 后置摄像头".

(** The exiftool tags of the shot parameters. *)
Definition SHOT_TAGS : list str :=
  LENS_TAG :: map (fun p => snd (fst p)) SHOT_PARAMETERS.

(** The archives finished during a request. *)
Fixpoint archives (t : list event) : list (str * compression * list (str * str)) :=
  match t with
  | [] => []
  | ZipWrite p m es :: r => (p, m, es) :: archives r
  | _ :: r => archives r
  end.

(** The files a request tried to save. *)
Fixpoint saves (t : list event) : list str :=
  match t with
  | [] => []
  | Save p :: r => p :: saves r
  | _ :: r => saves r
  end.

(** A deletion of [p] without delay was scheduled. *)
Definition deletion_scheduled (p : str) (t : list event) : Prop :=
  exists ps, In (ScheduleDelete ps 0) t /\ In p ps.



(** What the pairing endpoint refuses: a file field is missing, a file
    has a name whose extension is not allowed, or a required field is
    empty once trimmed. *)
Definition live_rejected {rt : Runtime} (req : request) : Prop :=
  lookup (lit "photo") (files req) = None
  \/ lookup (lit "video") (files req) = None
  \/ (exists f, lookup (lit "photo") (files req) = Some f
                /\ DtApp.allowed_image (filename f) = false)
  \/ (exists f, lookup (lit "video") (files req) = Some f
                /\ DtApp.allowed_video (filename f) = false)
  \/ strip (form_get req (lit "make") []) = []
  \/ strip (form_get req (lit "model") []) = []
  \/ strip (form_get req (lit "date") []) = []
  \/ strip (form_get req (lit "asset_id") []) = [].

(** The same for the video-only endpoint. *)
Definition video_rejected {rt : Runtime} (req : request) : Prop :=
  lookup (lit "file") (files req) = None
  \/ (exists f, lookup (lit "file") (files req) = Some f
                /\ App.allowed_file (filename f) = false)
  \/ strip (form_get req (lit "make") []) = []
  \/ strip (form_get req (lit "model") []) = []
  \/ strip (form_get req (lit "date") []) = [].

(** A world in which every external action succeeds. *)
Definition calm_world : world :=
  {| uuid4_hex := lit "0123456789abcdef0123456789abcdef";
     save_result := fun _ => IoOk;
     run_result := fun _ => Exited 0 [] [] true;
     copy_result := fun _ _ => IoOk;
     zip_result := fun _ => IoOk;
     worker_done := fun _ _ => false |}.


(** A world in which the remux exits with code 1, having written part
    of its output. *)
Definition broken_world : world :=
  {| uuid4_hex := lit "0123456789abcdef0123456789abcdef";
     save_result := fun _ => IoOk;
     run_result := fun a =>
       if mem (lit "-map") a
       then Exited 1 [] (lit "moov atom not found") true
       else Exited 0 [] [] true;
     copy_result := fun _ _ => IoOk;
     zip_result := fun _ => IoOk;
     worker_done := fun _ _ => false |}.

(** The runtime of the closed examples. *)
Definition example_runtime : Runtime := ascii_runtime (lit "/srv/forge").

(** The request of the scenario of the specification, with a PNG photo. *)
Definition example_live_request : request :=
  {| files := [ (lit "photo", {| filename := lit "IMG_0001.png" |});
                (lit "video", {| filename := lit "IMG_0001.MOV" |}) ];
     form := [ (lit "make", lit "Apple");
               (lit "model", lit "iPhone 17 Pro Max");
               (lit "date", lit "2026:02:22 12:00:00");
               (lit "asset_id", lit "  ab12-cd34  ") ] |}.

(** The request of the scenario with [aperture = "   "]. *)
Definition blank_aperture_request : request :=
  {| files := files example_live_request;
     form := (lit "aperture", lit "   ") :: form example_live_request |}.

Definition example_video_request : request :=
  {| files := [ (lit "file", {| filename := lit "clip.mp4" |}) ];
     form := [ (lit "make", lit "Apple");
               (lit "model", lit "iPhone 17 Pro Max");
               (lit "date", lit "2026:02:22 12:00:00+08:00") ] |}.

(** The commands run during a request, in order. *)
Fixpoint runs (t : list event) : list (list arg) :=
  match t with
  | [] => []
  | Run cmd _ :: r => cmd :: runs r
  | _ :: r => runs r
  end.

(** [l] is the beginning of [full]. *)
Definition prefix_of (A : Type) (l full : list A) : Prop :=
  exists rest, full = l ++ rest.




(** No string occurs twice in the list. *)
Fixpoint distinct (l : list str) : bool :=
  match l with
  | [] => true
  | x :: r => negb (mem x r) && distinct r
  end.

(** The tags a plan assigns, in order. *)
Definition tags_of (cmd : list arg) : list str := map fst (assignments cmd).

(** The tags of the required make, model and date. *)
Definition identity_tag (tag : str) : bool :=
  mem (tag_field tag) [lit "make"; lit "model"]
  || contains (lit "date") (tag_field tag).

(** The same, with the tags of the pairing identifier. *)
Definition required_tag (tag : str) : bool :=
  identity_tag tag || contains (lit "identifier") (tag_field tag).




(** A world in which the disk is full: no upload can be saved, and a
    partial file stays behind. *)
Definition full_disk_world : world :=
  {| uuid4_hex := lit "0123456789abcdef0123456789abcdef";
     save_result := fun _ => IoError (lit "[Errno 28] No space left on device") true;
     run_result := fun _ => Exited 0 [] [] true;
     copy_result := fun _ _ => IoOk;
     zip_result := fun _ => IoOk;
     worker_done := fun _ _ => false |}.

(** A world in which the archive cannot be created. *)
Definition no_archive_world : world :=
  {| uuid4_hex := lit "0123456789abcdef0123456789abcdef";
     save_result := fun _ => IoOk;
     run_result := fun _ => Exited 0 [] [] true;
     copy_result := fun _ _ => IoOk;
     zip_result := fun _ => IoError (lit "[Errno 13] Permission denied") false;
     worker_done := fun _ _ => false |}.

(** Uploads whose video is named ".mov": the name passes the extension
    check, and [secure_filename] turns it into "mov". *)
Definition hidden_live_request : request :=
  {| files := [ (lit "photo", {| filename := lit "IMG_0001.jpg" |});
                (lit "video", {| filename := lit ".mov" |}) ];
     form := form example_live_request |}.

Definition hidden_video_request : request :=
  {| files := [ (lit "file", {| filename := lit ".mov" |}) ];
     form := form example_video_request |}.

(** The two uploads of the scenario, each in the field of the other. *)
Definition swapped_request : request :=
  {| files := [ (lit "photo", {| filename := lit "IMG_0001.MOV" |});
                (lit "video", {| filename := lit "IMG_0001.png" |}) ];
     form := form example_live_request |}.

(* ================================================================== *)
(** * Facts about Python text *)
(* ================================================================== *)

Unset Implicit Arguments.

Lemma str_eqb_refl (s : str) : str_eqb s s = true.
Proof.
  induction s as [|c s IH]; simpl; [reflexivity|].
  now rewrite N.eqb_refl, IH.
Qed.

Lemma str_eqb_eq (a b : str) : str_eqb a b = true <-> a = b.
Proof.
  split.
  - revert b; induction a as [|x a IH]; intros [|y b] H; simpl in H;
      try discriminate; [reflexivity|].
    apply andb_true_iff in H as [Hxy Hab].
    apply N.eqb_eq in Hxy. apply IH in Hab. now subst.
  - intros ->. apply str_eqb_refl.
Qed.

Lemma str_eqb_neq (a b : str) : str_eqb a b = false <-> a <> b.
Proof.
  split.
  - intros H Hab. apply str_eqb_eq in Hab. congruence.
  - intros H. destruct (str_eqb a b) eqn:E; [|reflexivity].
    apply str_eqb_eq in E. contradiction.
Qed.

Lemma mem_In (x : str) (l : list str) : mem x l = true <-> In x l.
Proof.
  unfold mem. rewrite existsb_exists. split.
  - intros [y [Hy E]]. apply str_eqb_eq in E. now subst.
  - intros H. exists x. split; [assumption|apply str_eqb_refl].
Qed.

Lemma truthy_false (s : str) : truthy s = false <-> s = [].
Proof.
  destruct s; simpl; split; intro H; try reflexivity; discriminate H.
Qed.

(** ** [strip] *)

Lemma lstrip_all_space (s : str) : forallb isspace s = true -> lstrip s = [].
Proof.
  induction s as [|c s IH]; simpl; [reflexivity|].
  intros H. apply andb_true_iff in H as [Hc Hs]. rewrite Hc. now apply IH.
Qed.

Lemma strip_all_space (s : str) : forallb isspace s = true -> strip s = [].
Proof.
  intros H. unfold strip. now rewrite (lstrip_all_space s H).
Qed.

Lemma lstrip_head (s : str) (c : N) (r : str) :
  lstrip s = c :: r -> isspace c = false.
Proof.
  induction s as [|x s IH]; simpl; [discriminate|].
  destruct (isspace x) eqn:E; [exact IH|].
  intros H. injection H as -> _. exact E.
Qed.

Lemma lstrip_fixed (c : N) (r : str) : isspace c = false -> lstrip (c :: r) = c :: r.
Proof. intros H. simpl. now rewrite H. Qed.

(** What [lstrip] removes is a prefix. *)
Lemma lstrip_suffix (s : str) : exists p, s = p ++ lstrip s.
Proof.
  induction s as [|x s [p IH]]; simpl.
  - now exists [].
  - destruct (isspace x).
    + exists (x :: p). simpl. now rewrite <- IH.
    + now exists [].
Qed.

(** A string that was stripped and is not empty starts with a code point
    that is not white space. *)
Lemma strip_head (s : str) (c : N) (r : str) :
  strip s = c :: r -> isspace c = false.
Proof.
  unfold strip, rstrip. intros H.
  destruct (lstrip s) as [|d t] eqn:E.
  - simpl in H. discriminate H.
  - pose proof (lstrip_head s d t E) as Hd.
    destruct (lstrip_suffix (rev (d :: t))) as [p Hp].
    assert (Hrev : d :: t = rev (lstrip (rev (d :: t))) ++ rev p).
    { rewrite <- rev_app_distr, <- Hp. now rewrite rev_involutive. }
    rewrite H in Hrev. simpl in Hrev. injection Hrev as -> _. exact Hd.
Qed.

(** Stripping a stripped, non-empty string followed by text that ends in
    a code point that is not white space changes nothing. *)
Lemma strip_stripped_app (s tail : str) (z : N) :
  strip s <> [] -> isspace z = false ->
  strip (strip s ++ tail ++ [z]) = strip s ++ tail ++ [z].
Proof.
  intros Hne Hz.
  destruct (strip s) as [|c r] eqn:E; [contradiction|].
  pose proof (strip_head s c r E) as Hc.
  unfold strip at 1. simpl app. rewrite (lstrip_fixed c (r ++ tail ++ [z]) Hc).
  unfold rstrip.
  replace (rev (c :: r ++ tail ++ [z])) with (z :: rev (c :: r ++ tail)).
  - rewrite (lstrip_fixed z _ Hz).
    replace (rev (z :: rev (c :: r ++ tail)))
      with (rev (rev (c :: r ++ tail)) ++ [z]) by reflexivity.
    rewrite rev_involutive. simpl. now rewrite <- app_assoc.
  - change (c :: r ++ tail ++ [z]) with ((c :: r) ++ tail ++ [z]).
    rewrite !app_assoc. now rewrite rev_app_distr.
Qed.

(** ** [rsplit] and the extension of a file name *)

Lemma rsplit_dot_no_dot (s : str) : has_dot s = false -> rsplit_dot s = [s].
Proof.
  induction s as [|c s IH]; [reflexivity|].
  intros H. change (has_dot (c :: s)) with ((dot =? c)%N || has_dot s) in H.
  apply orb_false_iff in H as [Hc Hs].
  change (rsplit_dot (c :: s)) with
    (match rsplit_dot s with
     | [h; t] => [c :: h; t]
     | [t] => if (c =? dot)%N then [[]; t] else [c :: t]
     | _ => [c :: s]
     end).
  rewrite (IH Hs). rewrite N.eqb_sym in Hc. now rewrite Hc.
Qed.

Lemma rsplit_dot_last (base e : str) :
  has_dot e = false -> rsplit_dot (base ++ dot :: e) = [base; e].
Proof.
  intros He. induction base as [|c base IH].
  - change (rsplit_dot ([] ++ dot :: e)) with
      (match rsplit_dot e with
       | [h; t] => [dot :: h; t]
       | [t] => if (dot =? dot)%N then [[]; t] else [dot :: t]
       | _ => [dot :: e]
       end).
    now rewrite (rsplit_dot_no_dot e He), N.eqb_refl.
  - change (rsplit_dot ((c :: base) ++ dot :: e)) with
      (match rsplit_dot (base ++ dot :: e) with
       | [h; t] => [c :: h; t]
       | [t] => if (c =? dot)%N then [[]; t] else [c :: t]
       | _ => [c :: base ++ dot :: e]
       end).
    now rewrite IH.
Qed.

Lemma has_dot_app (a b : str) : has_dot (a ++ b) = has_dot a || has_dot b.
Proof. unfold has_dot. apply existsb_app. Qed.

(** ** Slices *)


Lemma last_chars_length (k : nat) (s : str) : length (last_chars k s) <= k.
Proof. unfold last_chars. rewrite length_skipn. lia. Qed.

(* ================================================================== *)
(** * The tag plans *)
(* ================================================================== *)

(** C2. In the video tag plan of either service ([inject_video_metadata]
    of dt_app.py, [inject_metadata] of app.py) the entries whose field is
    Make are exactly four, one per namespace (QuickTime, Keys, UserData,
    flat [com.apple.quicktime.make]), all with the caller's make; the same
    for Model; and the entries whose field is a date are exactly the six
    date fields, all with the caller's date. *)
Theorem make_model_date_redundancy (filepath make model date asset_id : str) :
  Forall
    (fun cmd =>
       entries_where (fun t => str_eqb (tag_field t) (lit "make")) cmd
       = [ (lit "QuickTime:Make", make);
           (lit "Keys:Make", make);
           (lit "UserData:Make", make);
           (lit "com.apple.quicktime.make", make) ]
       /\ entries_where (fun t => str_eqb (tag_field t) (lit "model")) cmd
          = [ (lit "QuickTime:Model", model);
              (lit "Keys:Model", model);
              (lit "UserData:Model", model);
              (lit "com.apple.quicktime.model", model) ]
       /\ entries_where (fun t => contains (lit "date") (tag_field t)) cmd
          = [ (lit "QuickTime:CreationDate", date);
              (lit "com.apple.quicktime.creationdate", date);
              (lit "CreateDate", date);
              (lit "DateTimeOriginal", date);
              (lit "TrackCreateDate", date);
              (lit "MediaCreateDate", date) ])
    [ DtApp.video_cmd filepath make model date asset_id;
      App.metadata_cmd filepath make model date ].
Proof.
  repeat constructor; reflexivity.
Qed.

(** C3. In the video tag plan of either service each handler-name field
    (HandlerName, VideoHandlerName, AudioHandlerName) is assigned exactly
    twice: first the empty value that blanks it, then its first-party
    value.  So the last value exiftool applies is "Core Media Video"
    ("Core Media Audio" for the audio handler), and no value of the plan
    is a handler name of ffmpeg. *)
Theorem handler_names_blanked_then_set (filepath make model date asset_id : str) :
  Forall
    (fun cmd =>
       Forall
         (fun tc =>
            values_of (fst tc) cmd = [ []; snd tc ]
            /\ last (values_of (fst tc) cmd) [] = snd tc
            /\ Forall (fun d => mem d (values_of (fst tc) cmd) = false)
                 FFMPEG_HANDLER_NAMES)
         [ (lit "QuickTime:HandlerName", lit "Core Media Video");
           (lit "QuickTime:VideoHandlerName", lit "Core Media Video");
           (lit "QuickTime:AudioHandlerName", lit "Core Media Audio") ])
    [ DtApp.video_cmd filepath make model date asset_id;
      App.metadata_cmd filepath make model date ].
Proof.
  repeat constructor; reflexivity.
Qed.


(* ================================================================== *)
(** * Running a handler symbolically *)
(* ================================================================== *)

Ltac find_scrutinee t :=
  match t with
  | context [match ?x with _ => _ end] => find_scrutinee x
  | _ => t
  end.

(** Case analysis on what the next branch of the handler depends on. *)
Ltac break_match :=
  match goal with
  | |- context [match ?x with _ => _ end] =>
      let y := find_scrutinee x in destruct y eqn:?
  end.

(** The next branch is decided by a hypothesis. *)
Ltac known_match :=
  match goal with
  | H : ?x = _ |- context [match ?x with _ => _ end] => rewrite H
  end.

Ltac step := first [known_match | break_match].

(** Unfolds the handlers and the monad, and nothing of the text. *)
Ltac exec :=
  cbv beta iota zeta delta
    [bind ret return_ raise try_except try_finally get_state modify
     emit add_file add_file_if set_tmp_files set_current_photo add_callback append
     file_save getsize subprocess_run copy2 zip_write
     after_this_request run_callback run_callbacks dispatch fold_left fold_right
     disk log callbacks tmp_files current_photo returncode stderr stdout
     fst snd init_state
     DtApp.serve DtApp.process_live DtApp.remux_to_mov DtApp.inject_image_metadata
     DtApp.inject_video_metadata DtApp.secure_ext DtApp.cleanup_all DtApp.schedule_delete
     App.serve App.process_video App.remux_to_mov App.inject_metadata
     App.secure_ext App.schedule_delete].

(** All the paths through the handler in the goal. *)
Ltac run := exec; repeat (step; exec).

(** The same, the handler being run once however often the statement
    mentions the request served. *)
Ltac run_as served :=
  let r := fresh "r" in
  let Hr := fresh "Hr" in
  let Q := fresh "Q" in
  remember served as r eqn:Hr;
  match goal with |- ?G => set (Q := G) end;
  revert Hr; run; intros Hr; subst Q; subst r; cbn [fst snd].

Ltac run_served :=
  match goal with
  | |- context [DtApp.serve ?w ?req] => run_as (DtApp.serve w req)
  | |- context [App.serve ?w ?req] => run_as (App.serve w req)
  end.

(** Two commands of different length are different. *)
Ltac length_clash H :=
  apply (f_equal (@length arg)) in H;
  cbv [length DtApp.conv_cmd DtApp.remux_cmd DtApp.image_cmd DtApp.video_cmd
       App.remux_cmd App.metadata_cmd live_image_cmd live_video_cmd
       video_metadata_cmd] in H;
  discriminate H.

Ltac zero_returncodes :=
  repeat match goal with
         | H : negb (?z =? 0)%Z = false |- _ =>
             apply negb_false_iff, Z.eqb_eq in H; subst z
         end.

Lemma run_inj (a b : list arg) (t u : N) : Run a t = Run b u -> a = b /\ t = u.
Proof. intros H. now injection H. Qed.

(* ================================================================== *)
(** * Validation of the uploads *)
(* ================================================================== *)

Section Extensions.

Context {rt : Runtime}.

Lemma extension_of_name (base e : str) :
  has_dot e = false ->
  has_dot (base ++ dot :: e) = true
  /\ nth_error (rsplit_dot (base ++ dot :: e)) 1 = Some e.
Proof.
  intros He. split.
  - rewrite has_dot_app.
    change (has_dot (dot :: e)) with ((dot =? dot)%N || has_dot e).
    rewrite N.eqb_refl. apply orb_true_r.
  - now rewrite (rsplit_dot_last base e He).
Qed.

Lemma no_dot_not_allowed (name : str) :
  has_dot name = false ->
  DtApp.allowed_video name = false
  /\ DtApp.allowed_image name = false
  /\ App.allowed_file name = false.
Proof.
  intros H. unfold DtApp.allowed_video, DtApp.allowed_image, App.allowed_file.
  now rewrite H.
Qed.

Lemma truthy_true (s : str) : s <> [] -> truthy s = true.
Proof. destruct s; [contradiction|reflexivity]. Qed.

Lemma missing_keys_nil (items : list (str * str)) :
  missing_keys items = [] -> forall k v, In (k, v) items -> v <> [].
Proof.
  induction items as [|[k0 v0] items IH]; simpl; [contradiction|].
  destruct (truthy v0) eqn:E; [|discriminate].
  intros H k v [Hkv | Hin].
  - injection Hkv as _ <-. intros ->. discriminate E.
  - now apply (IH H k v).
Qed.

(** What [process_live] does with a request it refuses. *)
Lemma live_rejected_400 (w : world) (req : request) :
  live_rejected req ->
  exists msg, DtApp.serve w req = (JsonError msg 400, init_state).
Proof.
  intros H. exec.
  destruct (lookup (lit "photo") (files req)) as [photo|] eqn:Ep;
    [|eexists; reflexivity].
  destruct (lookup (lit "video") (files req)) as [video|] eqn:Ev;
    [|eexists; reflexivity].
  destruct (negb (truthy (filename photo)) || negb (truthy (filename video)))
    eqn:En; [eexists; reflexivity|].
  destruct (negb (DtApp.allowed_image (filename photo))) eqn:Ei;
    [eexists; reflexivity|].
  destruct (negb (DtApp.allowed_video (filename video))) eqn:Ea;
    [eexists; reflexivity|].
  match goal with
  | |- context [match ?m with [] => _ | _ :: _ => _ end] =>
      destruct m eqn:Em; [|eexists; reflexivity]
  end.
  exfalso.
  apply negb_false_iff in Ei, Ea.
  pose proof (missing_keys_nil _ Em) as Hm.
  destruct H as [H|[H|[[f [Hf H]]|[[f [Hf H]]|[H|[H|[H|H]]]]]]].
  - congruence.
  - congruence.
  - rewrite Hf in Ep. injection Ep as <-. congruence.
  - rewrite Hf in Ev. injection Ev as <-. congruence.
  - apply (Hm (lit "make") (strip (form_get req (lit "make") [])));
      [simpl; tauto|exact H].
  - apply (Hm (lit "model") (strip (form_get req (lit "model") [])));
      [simpl; tauto|exact H].
  - apply (Hm (lit "date") (strip (form_get req (lit "date") [])));
      [simpl; tauto|exact H].
  - apply (Hm (lit "asset_id") (str_upper (strip (form_get req (lit "asset_id") []))));
      [simpl; tauto|]. now apply str_upper_empty.
Qed.

(** What [process_video] does with a request it refuses. *)
Lemma video_rejected_400 (w : world) (req : request) :
  video_rejected req ->
  exists msg, App.serve w req = (JsonError msg 400, init_state).
Proof.
  intros H. exec.
  destruct (lookup (lit "file") (files req)) as [file|] eqn:Ef;
    [|eexists; reflexivity].
  destruct (negb (truthy (filename file))) eqn:En; [eexists; reflexivity|].
  destruct (negb (App.allowed_file (filename file))) eqn:Ea;
    [eexists; reflexivity|].
  match goal with
  | |- context [match ?m with [] => _ | _ :: _ => _ end] =>
      destruct m eqn:Em; [|eexists; reflexivity]
  end.
  exfalso.
  apply negb_false_iff in Ea.
  pose proof (missing_keys_nil _ Em) as Hm.
  destruct H as [H|[[f [Hf H]]|[H|[H|H]]]].
  - congruence.
  - rewrite Hf in Ef. injection Ef as <-. congruence.
  - apply (Hm (lit "make") (strip (form_get req (lit "make") [])));
      [simpl; tauto|exact H].
  - apply (Hm (lit "model") (strip (form_get req (lit "model") [])));
      [simpl; tauto|exact H].
  - apply (Hm (lit "date") (strip (form_get req (lit "date") [])));
      [simpl; tauto|exact H].
Qed.

End Extensions.

(** C10. Both services check only what follows the last dot of the file
    name, in lower case, against their allow-list: the answer for
    [base.e] is that of [e.lower()], whatever [base] is, which for an
    ASCII extension is its ASCII lower case, so that a name ending in
    ".MOV" is accepted.  A name without any dot is not allowed, and a
    request that uploads a file under such a (non-empty) name is answered
    400 with the message of the extension check, nothing having been
    written. *)
Theorem extension_check_last_dot_any_case {rt : Runtime} :
  (forall base e, has_dot e = false ->
     DtApp.allowed_video (base ++ dot :: e) = mem (str_lower e) DtApp.ALLOWED_VIDEO_EXT
     /\ DtApp.allowed_image (base ++ dot :: e) = mem (str_lower e) DtApp.ALLOWED_IMAGE_EXT
     /\ App.allowed_file (base ++ dot :: e) = mem (str_lower e) App.ALLOWED_EXTENSIONS)
  /\ (forall base e, has_dot e = false -> forallb is_ascii e = true ->
        DtApp.allowed_video (base ++ dot :: e)
        = mem (map ascii_lower e) DtApp.ALLOWED_VIDEO_EXT
        /\ DtApp.allowed_image (base ++ dot :: e)
           = mem (map ascii_lower e) DtApp.ALLOWED_IMAGE_EXT
        /\ App.allowed_file (base ++ dot :: e)
           = mem (map ascii_lower e) App.ALLOWED_EXTENSIONS)
  /\ (forall base,
        DtApp.allowed_video (base ++ lit ".MOV") = true
        /\ App.allowed_file (base ++ lit ".MOV") = true)
  /\ (forall name, has_dot name = false ->
        DtApp.allowed_video name = false
        /\ DtApp.allowed_image name = false
        /\ App.allowed_file name = false)
  /\ (forall w req file,
        lookup (lit "file") (files req) = Some file ->
        filename file <> [] ->
        has_dot (filename file) = false ->
        App.serve w req = (JsonError (lit "仅支持 mp4 / mov 格式") 400, init_state))
  /\ (forall w req photo video,
        lookup (lit "photo") (files req) = Some photo ->
        lookup (lit "video") (files req) = Some video ->
        filename photo <> [] ->
        filename video <> [] ->
        (has_dot (filename photo) = false ->
         DtApp.serve w req
         = (JsonError (lit "图片仅支持 jpg/jpeg/png/heic/heif/webp") 400, init_state))
        /\ (DtApp.allowed_image (filename photo) = true ->
            has_dot (filename video) = false ->
            DtApp.serve w req = (JsonError (lit "视频仅支持 mp4/mov") 400, init_state))).
Proof.
  assert (Hlast : forall base e, has_dot e = false ->
     DtApp.allowed_video (base ++ dot :: e) = mem (str_lower e) DtApp.ALLOWED_VIDEO_EXT
     /\ DtApp.allowed_image (base ++ dot :: e) = mem (str_lower e) DtApp.ALLOWED_IMAGE_EXT
     /\ App.allowed_file (base ++ dot :: e) = mem (str_lower e) App.ALLOWED_EXTENSIONS).
  { intros base e He. destruct (extension_of_name base e He) as [Hd Hn].
    unfold DtApp.allowed_video, DtApp.allowed_image, App.allowed_file.
    rewrite Hd, Hn. now repeat split. }
  assert (Hascii : forall base e, has_dot e = false -> forallb is_ascii e = true ->
     DtApp.allowed_video (base ++ dot :: e) = mem (map ascii_lower e) DtApp.ALLOWED_VIDEO_EXT
     /\ DtApp.allowed_image (base ++ dot :: e) = mem (map ascii_lower e) DtApp.ALLOWED_IMAGE_EXT
     /\ App.allowed_file (base ++ dot :: e) = mem (map ascii_lower e) App.ALLOWED_EXTENSIONS).
  { intros base e He Ha. rewrite <- (str_lower_ascii e Ha). now apply Hlast. }
  split; [exact Hlast|]. split; [exact Hascii|]. split.
  { intros base. change (lit ".MOV") with (dot :: lit "MOV").
    destruct (Hascii base (lit "MOV") eq_refl eq_refl) as [Hv [_ Hf]].
    rewrite Hv, Hf. split; reflexivity. }
  split; [exact no_dot_not_allowed|]. split.
  - intros w req file Hfile Hname Hdot.
    destruct (no_dot_not_allowed (filename file) Hdot) as [_ [_ Hf]].
    exec. rewrite Hfile, (truthy_true _ Hname), Hf. reflexivity.
  - intros w req photo video Hp Hv Hpn Hvn. split.
    + intros Hdot.
      destruct (no_dot_not_allowed (filename photo) Hdot) as [_ [Hi _]].
      exec. rewrite Hp, Hv, (truthy_true _ Hpn), (truthy_true _ Hvn), Hi.
      reflexivity.
    + intros Hi Hdot.
      destruct (no_dot_not_allowed (filename video) Hdot) as [Hvideo _].
      exec. rewrite Hp, Hv, (truthy_true _ Hpn), (truthy_true _ Hvn), Hi, Hvideo.
      reflexivity.
Qed.

(** An upload named "README" is refused by the video service. *)
Lemma extension_check_example :
  App.serve (rt:=example_runtime) calm_world
    {| files := [ (lit "file", {| filename := lit "README" |}) ];
       form := form example_video_request |}
  = (JsonError (lit "仅支持 mp4 / mov 格式") 400, init_state).
Proof.
  apply (proj1 (proj2 (proj2 (proj2 (proj2
           (extension_check_last_dot_any_case (rt:=example_runtime))))))
           calm_world _ {| filename := lit "README" |}).
  - reflexivity.
  - discriminate.
  - reflexivity.
Defined.

(** C8. A request that lacks a required file field, uploads a file whose
    extension is not allowed, or leaves a required field empty once
    trimmed is answered 400 by either service, and the handler has done
    nothing by then: no file of the request is on disk, no upload was
    saved, nothing was run or scheduled. *)
Theorem invalid_request_400_nothing_written {rt : Runtime} (w : world) (req : request) :
  (live_rejected req ->
   status_of (fst (DtApp.serve w req)) = 400%N
   /\ (exists msg, fst (DtApp.serve w req) = JsonError msg 400)
   /\ disk (snd (DtApp.serve w req)) = []
   /\ saves (trace (snd (DtApp.serve w req))) = []
   /\ trace (snd (DtApp.serve w req)) = [])
  /\ (video_rejected req ->
      status_of (fst (App.serve w req)) = 400%N
      /\ (exists msg, fst (App.serve w req) = JsonError msg 400)
      /\ disk (snd (App.serve w req)) = []
      /\ saves (trace (snd (App.serve w req))) = []
      /\ trace (snd (App.serve w req)) = []).
Proof.
  split; intros H.
  - destruct (live_rejected_400 w req H) as [msg E]. rewrite E.
    repeat split. now exists msg.
  - destruct (video_rejected_400 w req H) as [msg E]. rewrite E.
    repeat split. now exists msg.
Qed.

(** The scenario of the specification: the [video] field is missing. *)
Lemma missing_video_example :
  fst (DtApp.serve (rt:=example_runtime) calm_world
         {| files := [ (lit "photo", {| filename := lit "IMG_0001.png" |}) ];
            form := form example_live_request |})
  = JsonError (lit "需要同时上传 photo 和 video 字段") 400
  /\ disk (snd (DtApp.serve (rt:=example_runtime) calm_world
                  {| files := [ (lit "photo", {| filename := lit "IMG_0001.png" |}) ];
                     form := form example_live_request |}))
     = [].
Proof.
  split; [reflexivity|].
  apply (proj1 (invalid_request_400_nothing_written (rt:=example_runtime) calm_world
                  {| files := [ (lit "photo", {| filename := lit "IMG_0001.png" |}) ];
                     form := form example_live_request |})).
  right. left. reflexivity.
Defined.

(* ================================================================== *)
(** * The commands a pairing request runs *)
(* ================================================================== *)

(** Every command [process_live] runs is the photo conversion, the
    remux, or one of the two exiftool commands of the request. *)
Lemma live_runs {rt : Runtime} (w : world) (req : request) (cmd : list arg) (t : N) :
  In (Run cmd t) (trace (snd (DtApp.serve w req))) ->
  (exists ext, cmd = DtApp.conv_cmd (live_src_photo w ext) (live_converted w) /\ t = 60%N)
  \/ (exists ext, cmd = DtApp.remux_cmd (live_src_video w ext) (live_out_video w) /\ t = 300%N)
  \/ (cmd = live_image_cmd w req /\ t = 60%N)
  \/ (cmd = live_video_cmd w req /\ t = 60%N).
Proof.
  run.
  all: unfold trace; cbn [log rev app In]; intros H.
  all: repeat (destruct H as [H|H]; [try discriminate H|]); try contradiction.
  all: apply run_inj in H; destruct H as [<- <-].
  all: lazymatch goal with
       | |- (exists _, DtApp.conv_cmd _ _ = _ /\ _) \/ _ =>
           left; eexists; split; reflexivity
       | |- (exists _, DtApp.remux_cmd _ _ = _ /\ _) \/ _ =>
           right; left; eexists; split; reflexivity
       | |- (exists _, DtApp.image_cmd _ _ _ _ _ _ _ _ _ _ _ _ = _ /\ _) \/ _ =>
           right; right; left; split; reflexivity
       | |- (exists _, DtApp.video_cmd _ _ _ _ _ = _ /\ _) \/ _ =>
           right; right; right; split; reflexivity
       end.
Qed.

(** A request answered with the archive has run both exiftool
    commands, and the file it sends is the archive of the request. *)
Lemma live_success {rt : Runtime} (w : world) (req : request) (path mime name : str) :
  fst (DtApp.serve w req) = SendFile path mime name ->
  In (Run (live_image_cmd w req) 60) (trace (snd (DtApp.serve w req)))
  /\ In (Run (live_video_cmd w req) 60) (trace (snd (DtApp.serve w req)))
  /\ path = live_out_zip w.
Proof.
  run_served.
  all: intro H; try discriminate H.
  all: injection H as <- _ _.
  all: unfold trace; cbn [log rev app In].
  all: split; [|split]; try reflexivity.
  all: unfold live_image_cmd, live_video_cmd, live_make, live_model, live_date,
         live_asset_id, live_out_photo, live_out_video; tauto.
Qed.

(** A request that has done anything has passed the validation. *)
Lemma live_run_validated {rt : Runtime} (w : world) (req : request) (e : event) :
  In e (trace (snd (DtApp.serve w req))) -> ~ live_rejected req.
Proof.
  intros H Hrej. destruct (live_rejected_400 w req Hrej) as [msg E].
  rewrite E in H. exact H.
Qed.

Lemma live_model_not_empty {rt : Runtime} (w : world) (req : request) (e : event) :
  In e (trace (snd (DtApp.serve w req))) -> strip (form_get req (lit "model") []) <> [].
Proof.
  intros H Hm. apply (live_run_validated w req e H).
  unfold live_rejected. tauto.
Qed.

Lemma live_words_only {rt : Runtime} (tag a b : str) :
  values_of tag (DtApp.conv_cmd a b) = []
  /\ values_of tag (DtApp.remux_cmd a b) = [].
Proof. split; reflexivity. Qed.

(** The pairing identifier in the two plans of a request. *)
Lemma live_id_values {rt : Runtime} (w : world) (req : request) :
  Forall (fun tag => values_of tag (live_image_cmd w req) = [live_asset_id req])
    IMAGE_ID_TAGS
  /\ Forall (fun tag => values_of tag (live_image_cmd w req) = []) VIDEO_ID_TAGS
  /\ Forall (fun tag => values_of tag (live_video_cmd w req) = [live_asset_id req])
       VIDEO_ID_TAGS
  /\ Forall (fun tag => values_of tag (live_video_cmd w req) = []) IMAGE_ID_TAGS.
Proof.
  unfold live_image_cmd, live_video_cmd.
  generalize (live_asset_id req) (live_make req) (live_model req) (live_date req).
  intros. repeat split; repeat constructor; reflexivity.
Qed.

Lemma form_get_absent (req : request) (key default : str) :
  lookup key (form req) = None -> form_get req key default = default.
Proof. unfold form_get. now intros ->. Qed.

Lemma form_get_present (req : request) (key default raw : str) :
  lookup key (form req) = Some raw -> form_get req key default = raw.
Proof. unfold form_get. now intros ->. Qed.

(** The shot parameters in the two plans of a request. *)
Lemma live_shot_values {rt : Runtime} (w : world) (req : request) :
  values_of LENS_TAG (live_image_cmd w req)
  = [strip (form_get req (lit "lens") (live_model req ++ LENS_SUFFIX))]
  /\ Forall (fun p => values_of (snd (fst p)) (live_image_cmd w req)
                      = [strip (form_get req (fst (fst p)) (snd p))])
       SHOT_PARAMETERS
  /\ Forall (fun tag => values_of tag (live_video_cmd w req) = []) SHOT_TAGS.
Proof.
  unfold live_image_cmd, live_video_cmd.
  generalize (live_asset_id req) (live_make req) (live_model req) (live_date req)
    (live_out_photo w) (live_out_video w).
  intros. split; [reflexivity|]. split; repeat constructor.
Qed.

Lemma lens_suffix_split : LENS_SUFFIX = lit " 后置摄像" ++ [22836%N].
Proof. reflexivity. Qed.

(** C1. Whatever the request and the outcome of the tools, every value
    that a command run by [process_live] assigns to one of the six
    documented locations of the pairing identifier is the form's
    [asset_id], trimmed and in upper case.  And a request answered with
    the archive has run an exiftool command on the output image and one
    on the output video that assign exactly that value, once, to each of
    the three
    image locations (Apple:ContentIdentifier, XMP-apple-fi:..., XMP:...)
    and to each of the three video locations (ContentIdentifier,
    Keys:..., com.apple.quicktime.content.identifier). *)
Theorem pairing_identifier_everywhere_the_same {rt : Runtime}
    (w : world) (req : request) :
  (forall cmd t tag v,
     In (Run cmd t) (trace (snd (DtApp.serve w req))) ->
     In tag (IMAGE_ID_TAGS ++ VIDEO_ID_TAGS) ->
     In v (values_of tag cmd) ->
     v = str_upper (strip (form_get req (lit "asset_id") [])))
  /\ (forall path mime name,
        fst (DtApp.serve w req) = SendFile path mime name ->
        exists image video,
          In (Run image 60) (trace (snd (DtApp.serve w req)))
          /\ In (Run video 60) (trace (snd (DtApp.serve w req)))
          /\ last (argv image) [] = live_out_photo w
          /\ last (argv video) [] = live_out_video w
          /\ Forall (fun tag => values_of tag image
                                = [str_upper (strip (form_get req (lit "asset_id") []))])
               IMAGE_ID_TAGS
          /\ Forall (fun tag => values_of tag video
                                = [str_upper (strip (form_get req (lit "asset_id") []))])
               VIDEO_ID_TAGS).
Proof.
  destruct (live_id_values w req) as [Hii [Hiv [Hvv Hvi]]].
  split.
  - intros cmd t tag v Hrun Htag Hv.
    apply in_app_or in Htag.
    destruct (live_runs w req cmd t Hrun)
      as [[ext [-> _]] | [[ext [-> _]] | [[-> _] | [-> _]]]].
    + rewrite (proj1 (live_words_only tag _ _)) in Hv. contradiction.
    + rewrite (proj2 (live_words_only tag _ _)) in Hv. contradiction.
    + destruct Htag as [Htag|Htag].
      * rewrite (proj1 (Forall_forall _ _) Hii tag Htag) in Hv.
        destruct Hv as [<-|[]]. reflexivity.
      * rewrite (proj1 (Forall_forall _ _) Hiv tag Htag) in Hv. contradiction.
    + destruct Htag as [Htag|Htag].
      * rewrite (proj1 (Forall_forall _ _) Hvi tag Htag) in Hv. contradiction.
      * rewrite (proj1 (Forall_forall _ _) Hvv tag Htag) in Hv.
        destruct Hv as [<-|[]]. reflexivity.
  - intros path mime name Hok.
    destruct (live_success w req path mime name Hok) as [Hi [Hv _]].
    exists (live_image_cmd w req), (live_video_cmd w req).
    split; [exact Hi|]. split; [exact Hv|].
    split; [reflexivity|]. split; [reflexivity|]. split; [exact Hii|exact Hvv].
Qed.

(** The scenario of the specification: [asset_id = "  ab12-cd34  "] is
    written as [AB12-CD34] in all six locations. *)
Lemma pairing_identifier_example :
  exists image video,
    In (Run image 60)
      (trace (snd (DtApp.serve (rt:=example_runtime) calm_world example_live_request)))
    /\ In (Run video 60)
         (trace (snd (DtApp.serve (rt:=example_runtime) calm_world example_live_request)))
    /\ last (argv image) []
       = lit "/srv/forge/uploads_dt/out_photo_0123456789abcdef0123456789abcdef.jpg"
    /\ last (argv video) []
       = lit "/srv/forge/uploads_dt/out_video_0123456789abcdef0123456789abcdef.mov"
    /\ Forall (fun tag => values_of tag image = [lit "AB12-CD34"]) IMAGE_ID_TAGS
    /\ Forall (fun tag => values_of tag video = [lit "AB12-CD34"]) VIDEO_ID_TAGS.
Proof.
  apply (proj2 (pairing_identifier_everywhere_the_same (rt:=example_runtime)
                  calm_world example_live_request)
           (lit "/srv/forge/uploads_dt/live_0123456789abcdef0123456789abcdef.zip")
           (lit "application/zip") (lit "LivePhoto_01234567.zip")).
  vm_compute. reflexivity.
Defined.

(** C4. A pairing request answered with a file has finished exactly one
    archive, the file it sends; the archive was written with
    [ZIP_STORED] and holds exactly two entries, the processed photo
    under the name IMG_LIVE.JPG and the processed video under the name
    IMG_LIVE.MOV. *)
Theorem archive_stored_two_fixed_names {rt : Runtime} (w : world) (req : request)
    (path mime name : str) :
  fst (DtApp.serve w req) = SendFile path mime name ->
  archives (trace (snd (DtApp.serve w req)))
  = [ (path, ZIP_STORED,
       [ (live_out_photo w, lit "IMG_LIVE.JPG");
         (live_out_video w, lit "IMG_LIVE.MOV") ]) ]
  /\ mime = lit "application/zip".
Proof.
  run_served.
  all: intro H; try discriminate H.
  all: injection H as <- <- _.
  all: unfold trace; cbn [log rev app archives].
  all: split; reflexivity.
Qed.

Lemma archive_example :
  archives
    (trace (snd (DtApp.serve (rt:=example_runtime) calm_world example_live_request)))
  = [ (lit "/srv/forge/uploads_dt/live_0123456789abcdef0123456789abcdef.zip",
       ZIP_STORED,
       [ (lit "/srv/forge/uploads_dt/out_photo_0123456789abcdef0123456789abcdef.jpg",
          lit "IMG_LIVE.JPG");
         (lit "/srv/forge/uploads_dt/out_video_0123456789abcdef0123456789abcdef.mov",
          lit "IMG_LIVE.MOV") ]) ]
  /\ lit "application/zip" = lit "application/zip".
Proof.
  apply (archive_stored_two_fixed_names (rt:=example_runtime)
           calm_world example_live_request
           (lit "/srv/forge/uploads_dt/live_0123456789abcdef0123456789abcdef.zip")
           (lit "application/zip") (lit "LivePhoto_01234567.zip")).
  vm_compute. reflexivity.
Defined.

(** The counterexample to C5 as it is stated: with no [lens] field and
    the model "iPhone 17 Pro Max" the image plan sets LensModel to
    "iPhone 17 Pro Max 后置摄像头", which is not "iPhone 17 Pro Max rear
    camera". *)
Lemma lens_default_is_not_rear_camera :
  lookup (lit "lens") (form example_live_request) = None
  /\ (exists cmd,
        In (Run cmd 60)
          (trace (snd (DtApp.serve (rt:=example_runtime) calm_world example_live_request)))
        /\ values_of (lit "LensModel") cmd = [lit "iPhone 17 Pro Max 后置摄像头"])
  /\ lit "iPhone 17 Pro Max 后置摄像头" <> lit "iPhone 17 Pro Max rear camera".
Proof.
  split; [reflexivity|]. split.
  - exists (live_image_cmd (rt:=example_runtime) calm_world example_live_request).
    split; [vm_compute; tauto|reflexivity].
  - intro H. vm_compute in H. discriminate H.
Qed.

(** C5 (amended). When a pairing request reaches the image injection,
    each optional shot parameter that is absent from the form has its
    documented default in the image plan (aperture 1.78, focal length 24,
    35 mm focal length 24, ISO 100, width 4032, height 3024), and an
    absent lens description is the trimmed model followed by
    " 后置摄像头"; the image plan is the only command run that assigns
    these tags. *)
Theorem shot_parameter_defaults {rt : Runtime} (w : world) (req : request) :
  In (Run (live_image_cmd w req) 60) (trace (snd (DtApp.serve w req))) ->
  (forall key tag default,
     In (key, tag, default) SHOT_PARAMETERS ->
     lookup key (form req) = None ->
     values_of tag (live_image_cmd w req) = [default])
  /\ (lookup (lit "lens") (form req) = None ->
      values_of (lit "LensModel") (live_image_cmd w req)
      = [strip (form_get req (lit "model") []) ++ lit " 后置摄像头"])
  /\ (forall cmd t tag,
        In (Run cmd t) (trace (snd (DtApp.serve w req))) ->
        In tag SHOT_TAGS ->
        values_of tag cmd <> [] ->
        cmd = live_image_cmd w req).
Proof.
  intros Hrun.
  destruct (live_shot_values w req) as [Hlens [Hshot Hvideo]].
  split; [|split].
  - intros key tag default Hin Habs.
    pose proof (proj1 (Forall_forall _ _) Hshot (key, tag, default) Hin) as Hv.
    cbn [fst snd] in Hv. rewrite Hv, (form_get_absent req key default Habs).
    destruct Hin as [E|[E|[E|[E|[E|[E|[]]]]]]]; injection E as <- <- <-; reflexivity.
  - intros Habs. change (lit "LensModel") with LENS_TAG. rewrite Hlens.
    rewrite (form_get_absent req _ _ Habs).
    unfold live_model. change (lit " 后置摄像头") with LENS_SUFFIX.
    rewrite lens_suffix_split.
    rewrite strip_stripped_app; [reflexivity| |reflexivity].
    exact (live_model_not_empty w req _ Hrun).
  - intros cmd t tag Hcmd Htag Hne.
    destruct (live_runs w req cmd t Hcmd)
      as [[ext [-> _]] | [[ext [-> _]] | [[-> _] | [-> _]]]].
    + now rewrite (proj1 (live_words_only tag _ _)) in Hne.
    + now rewrite (proj2 (live_words_only tag _ _)) in Hne.
    + reflexivity.
    + now rewrite (proj1 (Forall_forall _ _) Hvideo tag Htag) in Hne.
Qed.

(** The request of the scenario leaves out every shot parameter. *)
Lemma shot_parameter_defaults_example :
  Forall (fun p => values_of (snd (fst p))
                     (live_image_cmd (rt:=example_runtime) calm_world example_live_request)
                   = [snd p])
    SHOT_PARAMETERS.
Proof.
  apply Forall_forall. intros [[key tag] default] Hin.
  apply (proj1 (shot_parameter_defaults (rt:=example_runtime)
                  calm_world example_live_request
                  ltac:(vm_compute; tauto)) key tag default Hin).
  destruct Hin as [E|[E|[E|[E|[E|[E|[]]]]]]]; injection E as <- <- <-; reflexivity.
Defined.

(** C9. A shot parameter that is present in the form is written as its
    trimmed value, the default playing no part: when the value sent is
    made of white space only, the image plan assigns the empty string to
    the tag (and every command run that assigns the tag assigns the empty
    string), which is not the default. *)
Theorem blank_shot_parameter_is_empty {rt : Runtime} (w : world) (req : request)
    (key tag default raw : str) :
  In (key, tag, default)
    ((lit "lens", lit "LensModel", live_model req ++ lit " 后置摄像头")
       :: SHOT_PARAMETERS) ->
  lookup key (form req) = Some raw ->
  values_of tag (live_image_cmd w req) = [strip raw]
  /\ (forallb isspace raw = true ->
      values_of tag (live_image_cmd w req) = [ [] ]
      /\ default <> []
      /\ (forall cmd t v,
            In (Run cmd t) (trace (snd (DtApp.serve w req))) ->
            In v (values_of tag cmd) -> v = [])).
Proof.
  intros Hin Hraw.
  destruct (live_shot_values w req) as [Hlens [Hshot Hvideo]].
  assert (Hval : values_of tag (live_image_cmd w req) = [strip raw]).
  { destruct Hin as [E|Hin].
    - injection E as <- <- <-. change (lit "LensModel") with LENS_TAG.
      rewrite Hlens. now rewrite (form_get_present req _ _ raw Hraw).
    - pose proof (proj1 (Forall_forall _ _) Hshot (key, tag, default) Hin) as Hv.
      cbn [fst snd] in Hv. now rewrite Hv, (form_get_present req _ _ raw Hraw). }
  assert (Htag : In tag SHOT_TAGS).
  { destruct Hin as [E|Hin].
    - injection E as _ <- _. left. reflexivity.
    - right. apply (in_map (fun p => snd (fst p)) _ _ Hin). }
  split; [exact Hval|].
  intros Hblank. rewrite (strip_all_space raw Hblank) in Hval.
  split; [exact Hval|]. split.
  - destruct Hin as [E|[E|[E|[E|[E|[E|[E|[]]]]]]]]; injection E as _ _ <-;
      try discriminate.
    intro H. apply app_eq_nil in H as [_ H]. discriminate H.
  - intros cmd t v Hcmd Hv.
    destruct (live_runs w req cmd t Hcmd)
      as [[ext [-> _]] | [[ext [-> _]] | [[-> _] | [-> _]]]].
    + rewrite (proj1 (live_words_only tag _ _)) in Hv. contradiction.
    + rewrite (proj2 (live_words_only tag _ _)) in Hv. contradiction.
    + rewrite Hval in Hv. destruct Hv as [<-|[]]. reflexivity.
    + rewrite (proj1 (Forall_forall _ _) Hvideo tag Htag) in Hv. contradiction.
Qed.

Lemma blank_aperture_example :
  values_of (lit "FNumber")
    (live_image_cmd (rt:=example_runtime) calm_world blank_aperture_request)
  = [ [] ]
  /\ In (Run (live_image_cmd (rt:=example_runtime) calm_world blank_aperture_request) 60)
       (trace (snd (DtApp.serve (rt:=example_runtime) calm_world blank_aperture_request))).
Proof.
  split.
  - apply (proj2 (blank_shot_parameter_is_empty (rt:=example_runtime)
                    calm_world blank_aperture_request
                    (lit "aperture") (lit "FNumber") (lit "1.78") (lit "   ")
                    ltac:(right; left; reflexivity) eq_refl) eq_refl).
  - vm_compute. tauto.
Defined.

(* ================================================================== *)
(** * Temporary files and their deletion *)
(* ================================================================== *)

Lemma scheduled_now_spec (p : str) (l : list event) :
  scheduled_now p l = true <-> deletion_scheduled p l.
Proof.
  unfold scheduled_now, deletion_scheduled. rewrite existsb_exists. split.
  - intros [e [He Hp]]. destruct e as [| | | |ps d]; try discriminate Hp.
    destruct d; [|discriminate Hp]. exists ps. split; [exact He|].
    now apply mem_In.
  - intros [ps [He Hp]]. exists (ScheduleDelete ps 0). split; [exact He|].
    now apply mem_In.
Qed.

Lemma deletion_scheduled_incl (p : str) (l l' : list event) :
  incl l l' -> deletion_scheduled p l -> deletion_scheduled p l'.
Proof. intros Hi [ps [He Hp]]. exists ps. split; [now apply Hi|exact Hp]. Qed.

Lemma deletion_scheduled_rev (p : str) (l : list event) :
  deletion_scheduled p l -> deletion_scheduled p (rev l).
Proof. apply deletion_scheduled_incl. intros e. apply in_rev. Qed.

(** A file of the request that is no longer there was scheduled. *)
Lemma not_existing_was_scheduled (w : world) (st : state) (p : str) :
  In p (disk st) -> exists_now w st p = false -> deletion_scheduled p (log st).
Proof.
  intros Hin E. unfold exists_now in E.
  rewrite (proj2 (mem_In p (disk st)) Hin) in E. simpl in E.
  apply negb_false_iff, andb_true_iff in E as [E _].
  now apply scheduled_now_spec.
Qed.

(** [cleanup_all(delay=0)] covers every temporary file on disk: it
    schedules the file, or the file had been scheduled before. *)
Lemma cleanup_covers (w : world) (st : state) (p : str) (tmp : list str)
    (l : list event) :
  In (ScheduleDelete (filter (exists_now w st) tmp) 0) l ->
  incl (log st) l ->
  In p (disk st) -> In p tmp ->
  deletion_scheduled p l.
Proof.
  intros Hev Hincl Hdisk Htmp.
  destruct (exists_now w st p) eqn:E.
  - exists (filter (exists_now w st) tmp). split; [exact Hev|].
    apply filter_In. now split.
  - apply (deletion_scheduled_incl p (log st) l Hincl).
    now apply not_existing_was_scheduled with (w := w).
Qed.

Lemma in_cons_if_tail (b : bool) (x p : str) (l : list str) :
  In p l -> In p (cons_if b x l).
Proof. destruct b; simpl; auto. Qed.

Lemma in_cons_if_inv (b : bool) (x p : str) (l : list str) :
  In p (cons_if b x l) -> (b = true /\ x = p) \/ In p l.
Proof. destruct b; simpl; intuition. Qed.

Lemma converted_not_out_photo {rt : Runtime} (w : world) :
  str_eqb (live_converted w) (live_out_photo w) = false.
Proof.
  apply str_eqb_neq. unfold live_converted, live_out_photo, DtApp.upload_path.
  intros H. apply app_inv_head in H. vm_compute in H. discriminate H.
Qed.

(** Membership in a list that is written out. *)
Ltac find_in :=
  lazymatch goal with
  | |- In _ (cons_if true _ _) => cbn [cons_if]; find_in
  | |- In _ (cons_if _ _ _) => apply in_cons_if_tail; find_in
  | |- In _ (_ :: _) => first [left; reflexivity | right; find_in]
  end.

Ltac in_list := solve [find_in].

(** The file is one of those the request has written. *)
Ltac on_disk := cbn [disk]; in_list.

Ltac suffix_incl := solve [repeat (first [apply incl_refl | apply incl_tl])].

(** No command in the list is the one looked for. *)
Ltac no_such_run H :=
  cbn [In] in H;
  repeat (destruct H as [H|H];
          [first [discriminate H | injection H as H _; length_clash H]|]);
  contradiction.

(** A deletion event of the log names the file. *)
Ltac scheduled_directly :=
  match goal with
  | |- deletion_scheduled ?p ?l =>
      match l with
      | context [ScheduleDelete ?ps 0%N] =>
          let Hps := fresh "Hps" in
          assert (Hps : In p ps) by in_list;
          exists ps; split; [in_list | exact Hps]
      end
  end.

(** [cleanup_all] ran while the file was among the temporary files. *)
Ltac scheduled_by_cleanup :=
  match goal with
  | |- deletion_scheduled ?p ?l =>
      match l with
      | context [ScheduleDelete (filter (exists_now ?w ?st) ?tmp) 0%N] =>
          apply (cleanup_covers w st p tmp l);
          [in_list | cbn [log]; suffix_incl | on_disk | in_list]
      end
  end.

(** The [finally] of step 5 saw that the file was gone. *)
Ltac scheduled_before :=
  match goal with
  | E : negb (str_eqb ?p ?q) && exists_now ?w ?st ?p = false
    |- deletion_scheduled ?p ?l =>
      change (str_eqb p q) with (str_eqb (live_converted w) (live_out_photo w)) in E;
      rewrite converted_not_out_photo in E; cbn [negb andb] in E;
      apply (deletion_scheduled_incl p (log st) l);
      [cbn [log]; suffix_incl
      |apply (not_existing_was_scheduled w st p);
       [on_disk | exact E]]
  end.

(** Every file on disk at the end was scheduled for deletion. *)
Ltac all_scheduled :=
  let p := fresh "p" in
  let Hp := fresh "Hp" in
  intros p Hp; cbn [snd disk] in Hp;
  unfold trace; cbn [snd log]; apply deletion_scheduled_rev;
  repeat first
    [ apply in_cons_if_inv in Hp; destruct Hp as [[-> Hp]|Hp];
      [subst p; first [scheduled_directly | scheduled_by_cleanup]|]
    | destruct Hp as [Hp|Hp];
      [subst p; first [scheduled_directly | scheduled_by_cleanup]|] ];
  contradiction.

(** The event is found at position [n], before position [j]. *)
Ltac found_at n :=
  exists n; split; [lia|]; split; [reflexivity|]; do 3 eexists;
  first [eassumption | reflexivity].

Lemma some_inj (A : Type) (a b : A) : Some a = Some b -> a = b.
Proof. intros H. now injection H. Qed.

Lemma schedule_inj (a b : list str) (d e : N) :
  ScheduleDelete a d = ScheduleDelete b e -> a = b /\ d = e.
Proof. intros H. now injection H. Qed.

Lemma copy_inj (a b c d : str) : Copy2 a b = Copy2 c d -> a = c /\ b = d.
Proof. intros H. now injection H. Qed.

(** Two working files with different name patterns are different. *)
Ltac names_differ H :=
  unfold live_src_photo, live_src_video, live_converted, live_out_photo,
    live_out_video, live_out_zip, video_src, video_out,
    DtApp.upload_path, App.upload_path in H;
  apply app_inv_head in H; vm_compute in H; discriminate H.

(** The file the [finally] of step 5 looked for is on disk and no
    deletion of it was scheduled: it is there. *)
Ltac gone_unscheduled :=
  exfalso;
  match goal with
  | E : negb (str_eqb ?p ?q) && exists_now ?w ?st ?p = false |- _ =>
      let Hne := fresh "Hne" in
      let Hd := fresh "Hd" in
      let ps := fresh "ps" in
      let Hin := fresh "Hin" in
      let Hp := fresh "Hp" in
      assert (Hne : str_eqb p q = false)
        by (apply str_eqb_neq; let Hx := fresh "Hx" in intros Hx; names_differ Hx);
      rewrite Hne in E; cbn [negb andb] in E;
      assert (Hd : deletion_scheduled p (log st))
        by (apply (not_existing_was_scheduled w st p); [on_disk | exact E]);
      cbn [log] in Hd; destruct Hd as [ps [Hin Hp]]; cbn [In] in Hin;
      repeat (destruct Hin as [Hin|Hin];
              [first [ discriminate Hin
                     | apply schedule_inj in Hin; destruct Hin as [<- _];
                       cbn [In] in Hp;
                       repeat (destruct Hp as [Hp|Hp]; [names_differ Hp|]);
                       contradiction ]|]);
      contradiction
  end.

(** No deletion scheduled before position 4 names the file. *)
Ltac not_scheduled_before :=
  let m := fresh "m" in
  let ps := fresh "ps" in
  let d := fresh "d" in
  let Hm := fresh "Hm" in
  let Hev := fresh "Hev" in
  let Hp := fresh "Hp" in
  intros m ps d Hm Hev;
  do 4 (destruct m as [|m];
        [cbn [nth_error] in Hev;
         first [ discriminate Hev
               | apply some_inj, schedule_inj in Hev; destruct Hev as [<- _];
                 intros Hp; cbn [In] in Hp;
                 repeat (destruct Hp as [Hp|Hp]; [names_differ Hp|]);
                 contradiction ]|]);
  lia.

(* ================================================================== *)
(** * The conversion of the photo *)
(* ================================================================== *)

Section Conversion.

Context {rt : Runtime} (w : world) (req : request) (photo : FileStorage) (e : str).

Hypothesis Hphoto : lookup (lit "photo") (files req) = Some photo.
Hypothesis Hext : nth_error (rsplit_dot (secure_filename (filename photo))) 1 = Some e.

Lemma jpeg_not_converted :
  mem (str_lower e) [lit "jpg"; lit "jpeg"] = true ->
  forall cmd t a b,
    In (Run cmd t) (trace (snd (DtApp.serve w req))) -> cmd <> DtApp.conv_cmd a b.
Proof.
  intros Hjpeg cmd t a b.
  assert (Hn : negb (mem (str_lower e) [lit "jpg"; lit "jpeg"]) = false)
    by now rewrite Hjpeg.
  run.
  all: unfold trace; cbn [log rev app In]; intros H.
  all: repeat (destruct H as [H|H]; [try discriminate H|]); try contradiction.
  all: injection H as <- _; intros Hc; length_clash Hc.
Qed.

(** A JPEG goes to the output as it is. *)
Lemma jpeg_copied_as_is :
  mem (str_lower e) [lit "jpg"; lit "jpeg"] = true ->
  forall j,
    nth_error (trace (snd (DtApp.serve w req))) j = Some (Run (live_image_cmd w req) 60) ->
    exists k,
      k < j
      /\ nth_error (trace (snd (DtApp.serve w req))) k
         = Some (Copy2 (live_src_photo w (str_lower e)) (live_out_photo w))
      /\ copy_result w (live_src_photo w (str_lower e)) (live_out_photo w) = IoOk.
Proof.
  intros Hjpeg.
  assert (Hn : negb (mem (str_lower e) [lit "jpg"; lit "jpeg"]) = false)
    by now rewrite Hjpeg.
  unfold live_src_photo, live_out_photo.
  run_served.
  all: unfold trace; cbn [snd log rev app]; intros j H.
  all: repeat (destruct j as [|j];
               [cbn [nth_error] in H; try discriminate H
               |cbn [nth_error] in H; try discriminate H]).
  all: try (exfalso; injection H as Hc; length_clash Hc).
  all: exists 2; split; [lia|]; split; [reflexivity|]; first [reflexivity | eassumption].
Qed.

(** Any other photo is converted, and the converted file is the one
    copied to the output. *)
Lemma other_formats_converted_first :
  mem (str_lower e) [lit "jpg"; lit "jpeg"] = false ->
  forall j,
    nth_error (trace (snd (DtApp.serve w req))) j = Some (Run (live_image_cmd w req) 60) ->
    exists i k,
      i < k /\ k < j
      /\ nth_error (trace (snd (DtApp.serve w req))) i
         = Some (Run (DtApp.conv_cmd (live_src_photo w (str_lower e)) (live_converted w)) 60)
      /\ (exists so se wrote,
            run_result w (argv (DtApp.conv_cmd (live_src_photo w (str_lower e))
                                  (live_converted w)))
            = Exited 0 so se wrote)
      /\ nth_error (trace (snd (DtApp.serve w req))) k
         = Some (Copy2 (live_converted w) (live_out_photo w))
      /\ copy_result w (live_converted w) (live_out_photo w) = IoOk.
Proof.
  intros Hother.
  assert (Hn : negb (mem (str_lower e) [lit "jpg"; lit "jpeg"]) = true)
    by now rewrite Hother.
  unfold live_src_photo, live_converted, live_out_photo.
  run_served.
  all: zero_returncodes.
  all: unfold trace; cbn [snd log rev app]; intros j H.
  all: repeat (destruct j as [|j];
               [cbn [nth_error] in H; try discriminate H
               |cbn [nth_error] in H; try discriminate H]).
  all: try (exfalso; injection H as Hc; length_clash Hc).
  all: exists 2, 4; split; [lia|]; split; [lia|]; split; [reflexivity|];
       split; [do 3 eexists; first [reflexivity | eassumption]|];
       split; [reflexivity|first [reflexivity | eassumption]].
Qed.

(** The deletion of the converted file is the effect that follows its
    copy, and no deletion names it before. *)
Lemma converted_deleted_after_use (rc : Z) (so se : str) :
  run_result w (argv (DtApp.conv_cmd (live_src_photo w (str_lower e)) (live_converted w)))
  = Exited rc so se true ->
  forall k,
    nth_error (trace (snd (DtApp.serve w req))) k
    = Some (Copy2 (live_converted w) (live_out_photo w)) ->
    nth_error (trace (snd (DtApp.serve w req))) (S k)
    = Some (ScheduleDelete [live_converted w] 0)
    /\ forall m ps d,
         m < k ->
         nth_error (trace (snd (DtApp.serve w req))) m = Some (ScheduleDelete ps d) ->
         ~ In (live_converted w) ps.
Proof.
  unfold live_src_photo, live_converted, live_out_photo. intros Hrun.
  run_served.
  all: unfold trace; cbn [snd log rev app]; intros k H.
  all: repeat (destruct k as [|k];
               [cbn [nth_error] in H; try discriminate H
               |cbn [nth_error] in H; try discriminate H]).
  all: apply some_inj, copy_inj in H; destruct H as [Ha _].
  all: first [ names_differ Ha | clear Ha ].
  all: split;
       [cbn [nth_error]; first [reflexivity | gone_unscheduled]
       |not_scheduled_before].
Qed.

Lemma converted_file_scheduled (rc : Z) (so se : str) :
  run_result w (argv (DtApp.conv_cmd (live_src_photo w (str_lower e)) (live_converted w)))
  = Exited rc so se true ->
  In (Run (DtApp.conv_cmd (live_src_photo w (str_lower e)) (live_converted w)) 60)
    (trace (snd (DtApp.serve w req))) ->
  deletion_scheduled (live_converted w) (trace (snd (DtApp.serve w req))).
Proof.
  unfold live_src_photo, live_converted. intros Hrun.
  run.
  all: unfold trace; cbn [log]; intros H; apply in_rev in H;
       apply deletion_scheduled_rev.
  all: first [ scheduled_directly | scheduled_by_cleanup | scheduled_before
             | no_such_run H ].
Qed.

End Conversion.

(** The counterexample to C6 as it is stated: a PNG photo does not go to
    the injection as it is, ffmpeg converts it first. *)
Lemma png_is_converted :
  lookup (lit "photo") (files example_live_request)
  = Some {| filename := lit "IMG_0001.png" |}
  /\ fst (DtApp.serve (rt:=example_runtime) calm_world example_live_request)
     = SendFile (lit "/srv/forge/uploads_dt/live_0123456789abcdef0123456789abcdef.zip")
         (lit "application/zip") (lit "LivePhoto_01234567.zip")
  /\ nth_error
       (trace (snd (DtApp.serve (rt:=example_runtime) calm_world example_live_request))) 2
     = Some (Run
               (DtApp.conv_cmd
                  (lit "/srv/forge/uploads_dt/src_photo_0123456789abcdef0123456789abcdef.png")
                  (lit "/srv/forge/uploads_dt/conv_photo_0123456789abcdef0123456789abcdef.jpg"))
               60).
Proof. vm_compute. repeat split. Qed.

(** C6 (amended). In the pairing pipeline the image injection works on
    the output image.  For a photo whose (sanitised, lower-case)
    extension is jpg or jpeg no conversion command is run, and the
    injection, when it is reached, comes after the upload has been
    copied to the output image.  For every other extension (png, heic,
    heif, webp) the injection, when it is reached, comes after the
    ffmpeg conversion of the photo, which has exited with code 0, and
    after the copy of the converted file to the output image: the file
    injected is the converted one.  Once the conversion has exited (with
    any code) and left its output file, the converted file is deleted
    after use: the deletion without delay is the very next effect after
    the copy, whether or not the copy succeeded, no deletion names the
    file before the copy, and whatever happens to the request the file
    is scheduled for deletion without delay. *)
Theorem conversion_unless_jpeg {rt : Runtime} (w : world) (req : request)
    (photo : FileStorage) (e : str) :
  lookup (lit "photo") (files req) = Some photo ->
  nth_error (rsplit_dot (secure_filename (filename photo))) 1 = Some e ->
  last (argv (live_image_cmd w req)) [] = live_out_photo w
  /\ (mem (str_lower e) [lit "jpg"; lit "jpeg"] = true ->
      (forall cmd t a b,
         In (Run cmd t) (trace (snd (DtApp.serve w req))) -> cmd <> DtApp.conv_cmd a b)
      /\ forall j,
           nth_error (trace (snd (DtApp.serve w req))) j
           = Some (Run (live_image_cmd w req) 60) ->
           exists k,
             k < j
             /\ nth_error (trace (snd (DtApp.serve w req))) k
                = Some (Copy2 (live_src_photo w (str_lower e)) (live_out_photo w))
             /\ copy_result w (live_src_photo w (str_lower e)) (live_out_photo w) = IoOk)
  /\ (mem (str_lower e) [lit "jpg"; lit "jpeg"] = false ->
      forall j,
        nth_error (trace (snd (DtApp.serve w req))) j
        = Some (Run (live_image_cmd w req) 60) ->
        exists i k,
          i < k /\ k < j
          /\ nth_error (trace (snd (DtApp.serve w req))) i
             = Some (Run (DtApp.conv_cmd (live_src_photo w (str_lower e))
                            (live_converted w)) 60)
          /\ (exists so se wrote,
                run_result w (argv (DtApp.conv_cmd (live_src_photo w (str_lower e))
                                      (live_converted w)))
                = Exited 0 so se wrote)
          /\ nth_error (trace (snd (DtApp.serve w req))) k
             = Some (Copy2 (live_converted w) (live_out_photo w))
          /\ copy_result w (live_converted w) (live_out_photo w) = IoOk)
  /\ (forall rc so se,
        run_result w (argv (DtApp.conv_cmd (live_src_photo w (str_lower e))
                              (live_converted w)))
        = Exited rc so se true ->
        (forall k,
           nth_error (trace (snd (DtApp.serve w req))) k
           = Some (Copy2 (live_converted w) (live_out_photo w)) ->
           nth_error (trace (snd (DtApp.serve w req))) (S k)
           = Some (ScheduleDelete [live_converted w] 0)
           /\ forall m ps d,
                m < k ->
                nth_error (trace (snd (DtApp.serve w req))) m
                = Some (ScheduleDelete ps d) ->
                ~ In (live_converted w) ps)
        /\ (In (Run (DtApp.conv_cmd (live_src_photo w (str_lower e))
                       (live_converted w)) 60)
              (trace (snd (DtApp.serve w req))) ->
            deletion_scheduled (live_converted w) (trace (snd (DtApp.serve w req))))).
Proof.
  intros Hphoto Hext. split; [reflexivity|]. split; [|split].
  - intros Hjpeg. split.
    + exact (jpeg_not_converted w req photo e Hphoto Hext Hjpeg).
    + exact (jpeg_copied_as_is w req photo e Hphoto Hext Hjpeg).
  - exact (other_formats_converted_first w req photo e Hphoto Hext).
  - intros rc so se Hrun. split.
    + exact (converted_deleted_after_use w req photo e Hphoto Hext rc so se Hrun).
    + exact (converted_file_scheduled w req photo e Hphoto Hext rc so se Hrun).
Qed.

(** The PNG of the scenario: its converted copy is copied to the output
    image, and its deletion is the next effect of the request. *)
Lemma conversion_example :
  nth_error
    (trace (snd (DtApp.serve (rt:=example_runtime) calm_world example_live_request))) 5
  = Some (ScheduleDelete [live_converted (rt:=example_runtime) calm_world] 0).
Proof.
  exact (proj1 (proj1 (proj2 (proj2 (proj2
           (conversion_unless_jpeg (rt:=example_runtime)
              calm_world example_live_request
              {| filename := lit "IMG_0001.png" |} (lit "png")
              eq_refl eq_refl)))
           0%Z [] [] eq_refl) 4 ltac:(vm_compute; reflexivity))).
Defined.

(* ================================================================== *)
(** * Failures of the external tools *)
(* ================================================================== *)











(* ================================================================== *)
(** * More about file names *)
(* ================================================================== *)

Lemma pair_inj (A B : Type) (a a' : A) (b b' : B) :
  (a, b) = (a', b') -> a = a' /\ b = b'.
Proof. intros H. now injection H. Qed.

Lemma str_eq_dec (a b : str) : a = b \/ a <> b.
Proof.
  destruct (str_eqb a b) eqn:E.
  - left. now apply str_eqb_eq.
  - right. now apply str_eqb_neq.
Qed.

(** A string that was stripped ends with a code point that is not white
    space. *)
Lemma strip_last (s r : str) (z : N) : strip s = r ++ [z] -> isspace z = false.
Proof.
  unfold strip, rstrip. intros H.
  apply (f_equal (@rev N)) in H. rewrite rev_involutive, rev_app_distr in H.
  simpl in H. exact (lstrip_head _ _ _ H).
Qed.

Lemma strip_idempotent (s : str) : strip (strip s) = strip s.
Proof.
  destruct (strip s) as [|c r] eqn:E; [reflexivity|].
  pose proof (strip_head s c r E) as Hc.
  destruct (exists_last (l := c :: r)) as [body [z Hz]]; [discriminate|].
  assert (Hs : isspace z = false).
  { apply (strip_last s body z). now rewrite E. }
  unfold strip. rewrite (lstrip_fixed c r Hc). unfold rstrip.
  rewrite Hz, rev_app_distr. simpl rev at 2. simpl app.
  rewrite (lstrip_fixed z (rev body) Hs).
  change (rev (z :: rev body)) with (rev (rev body) ++ [z]).
  now rewrite rev_involutive.
Qed.

(** A name with a dot splits at its last dot. *)
Lemma rsplit_dot_split (s : str) :
  has_dot s = true ->
  exists h t, rsplit_dot s = [h; t] /\ s = h ++ dot :: t /\ has_dot t = false.
Proof.
  induction s as [|c s IH]; [discriminate|].
  intros H. change (has_dot (c :: s)) with ((dot =? c)%N || has_dot s) in H.
  change (rsplit_dot (c :: s)) with
    (match rsplit_dot s with
     | [h; t] => [c :: h; t]
     | [t] => if (c =? dot)%N then [[]; t] else [c :: t]
     | _ => [c :: s]
     end).
  destruct (has_dot s) eqn:Hs.
  - destruct (IH eq_refl) as [h [t [E [-> Ht]]]]. rewrite E.
    exists (c :: h), t. repeat split. exact Ht.
  - rewrite orb_false_r in H. apply N.eqb_eq in H. subst c.
    rewrite (rsplit_dot_no_dot s Hs), N.eqb_refl.
    exists [], s. repeat split. exact Hs.
Qed.

Section AllowLists.

Context {rt : Runtime}.

Lemma allowed_iff (allow : list str) (name : str) :
  has_dot name
  && match nth_error (rsplit_dot name) 1 with
     | Some e => mem (str_lower e) allow
     | None => false
     end = true
  <-> exists base e,
        name = base ++ dot :: e /\ has_dot e = false /\ In (str_lower e) allow.
Proof.
  split.
  - intros H. apply andb_true_iff in H as [Hd H].
    destruct (rsplit_dot_split name Hd) as [h [t [E [Hn Ht]]]].
    rewrite E in H. cbn [nth_error] in H. apply mem_In in H.
    now exists h, t.
  - intros [base [e [-> [He Hin]]]].
    destruct (extension_of_name base e He) as [Hd Hn].
    rewrite Hd, Hn. now apply mem_In.
Qed.

(** The two allow-lists of the pairing service have no extension in
    common. *)
Lemma image_name_not_video (name : str) :
  DtApp.allowed_image name = true -> DtApp.allowed_video name = false.
Proof.
  unfold DtApp.allowed_image, DtApp.allowed_video.
  destruct (has_dot name); [|reflexivity]. cbn [andb].
  destruct (nth_error (rsplit_dot name) 1) as [e|]; [|reflexivity].
  intros H. apply mem_In in H. unfold DtApp.ALLOWED_IMAGE_EXT in H. cbn [In] in H.
  repeat (destruct H as [H|H]; [rewrite <- H; reflexivity|]). contradiction.
Qed.

Lemma empty_name_not_allowed (name : str) :
  truthy name = false ->
  DtApp.allowed_video name = false
  /\ DtApp.allowed_image name = false
  /\ App.allowed_file name = false.
Proof.
  intros H. apply truthy_false in H. subst name. now apply no_dot_not_allowed.
Qed.

Lemma missing_keys_cons (items : list (str * str)) (k : str) (l : list str) :
  missing_keys items = k :: l -> exists k' v, In (k', v) items /\ v = [].
Proof.
  induction items as [|[k0 v0] items IH]; simpl; [discriminate|].
  destruct (truthy v0) eqn:E.
  - intros H. destruct (IH H) as [k' [v [Hin Hv]]]. exists k', v. tauto.
  - intros _. exists k0, v0. split; [now left|now apply truthy_false].
Qed.

Lemma live_empty_name_rejected (req : request) (p v : FileStorage) :
  lookup (lit "photo") (files req) = Some p ->
  lookup (lit "video") (files req) = Some v ->
  negb (truthy (filename p)) || negb (truthy (filename v)) = true ->
  live_rejected req.
Proof.
  intros Hp Hv H. apply orb_true_iff in H as [H|H]; apply negb_true_iff in H;
    destruct (empty_name_not_allowed _ H) as [Hvid [Himg _]].
  - right; right; left. now exists p.
  - right; right; right; left. now exists v.
Qed.

Lemma live_missing_field_rejected (req : request) (k : str) (l : list str) :
  missing_keys
    [ (lit "make", strip (form_get req (lit "make") []));
      (lit "model", strip (form_get req (lit "model") []));
      (lit "date", strip (form_get req (lit "date") []));
      (lit "asset_id", str_upper (strip (form_get req (lit "asset_id") []))) ]
  = k :: l ->
  live_rejected req.
Proof.
  intros H. destruct (missing_keys_cons _ _ _ H) as [k' [v [Hin Hv]]].
  unfold live_rejected. cbn [In] in Hin.
  destruct Hin as [E|[E|[E|[E|[]]]]]; injection E as _ E; rewrite Hv in E.
  - tauto.
  - tauto.
  - tauto.
  - apply (proj1 (str_upper_empty _)) in E. tauto.
Qed.

Lemma video_missing_field_rejected (req : request) (k : str) (l : list str) :
  missing_keys
    [ (lit "make", strip (form_get req (lit "make") []));
      (lit "model", strip (form_get req (lit "model") []));
      (lit "date", strip (form_get req (lit "date") [])) ]
  = k :: l ->
  video_rejected req.
Proof.
  intros H. destruct (missing_keys_cons _ _ _ H) as [k' [v [Hin Hv]]].
  unfold video_rejected. cbn [In] in Hin.
  destruct Hin as [E|[E|[E|[]]]]; injection E as _ E; rewrite Hv in E; tauto.
Qed.

End AllowLists.

(** X19. The extension checks of the two services accept exactly the
    names of the form [base.e] in which [e] has no dot and [e.lower()] is
    on the allow-list of the check; [base] may be anything, the empty
    string included, so that ".mov" is an allowed video name. *)
Theorem allowed_names_exactly {rt : Runtime} (name : str) :
  (DtApp.allowed_image name = true
   <-> exists base e, name = base ++ dot :: e /\ has_dot e = false
                      /\ In (str_lower e) DtApp.ALLOWED_IMAGE_EXT)
  /\ (DtApp.allowed_video name = true
      <-> exists base e, name = base ++ dot :: e /\ has_dot e = false
                         /\ In (str_lower e) DtApp.ALLOWED_VIDEO_EXT)
  /\ (App.allowed_file name = true
      <-> exists base e, name = base ++ dot :: e /\ has_dot e = false
                         /\ In (str_lower e) App.ALLOWED_EXTENSIONS).
Proof.
  repeat split; try apply (proj1 (allowed_iff _ name)); apply (proj2 (allowed_iff _ name)).
Qed.

(** X18. No file name passes both extension checks of the pairing
    service.  So a request that sends a video in the [photo] field, or a
    photo in the [video] field, is answered 400 before anything is
    written. *)
Theorem swapped_uploads_rejected {rt : Runtime} (w : world) (req : request)
    (photo video : FileStorage) :
  lookup (lit "photo") (files req) = Some photo ->
  lookup (lit "video") (files req) = Some video ->
  DtApp.allowed_video (filename photo) = true
  \/ DtApp.allowed_image (filename video) = true ->
  status_of (fst (DtApp.serve w req)) = 400%N
  /\ trace (snd (DtApp.serve w req)) = [].
Proof.
  intros Hp Hv Hswap.
  assert (Hrej : live_rejected req).
  { destruct Hswap as [H|H].
    - right; right; left. exists photo. split; [exact Hp|].
      destruct (DtApp.allowed_image (filename photo)) eqn:E; [|reflexivity].
      rewrite (image_name_not_video _ E) in H. discriminate H.
    - right; right; right; left. exists video. split; [exact Hv|].
      now apply image_name_not_video. }
  destruct (live_rejected_400 w req Hrej) as [msg E]. rewrite E. split; reflexivity.
Qed.

(** The uploads of the scenario, swapped. *)
Lemma swapped_uploads_example :
  status_of (fst (DtApp.serve (rt:=example_runtime) calm_world swapped_request)) = 400%N
  /\ trace (snd (DtApp.serve (rt:=example_runtime) calm_world swapped_request)) = [].
Proof.
  apply (swapped_uploads_rejected (rt:=example_runtime) calm_world swapped_request
           {| filename := lit "IMG_0001.MOV" |} {| filename := lit "IMG_0001.png" |}
           eq_refl eq_refl).
  left. reflexivity.
Defined.

(* ================================================================== *)
(** * More about the tag plans *)
(* ================================================================== *)

Lemma distinct_NoDup (l : list str) : distinct l = true -> NoDup l.
Proof.
  induction l as [|x l IH]; simpl; intros H; [constructor|].
  apply andb_true_iff in H as [Hx Hl]. constructor; [|now apply IH].
  intros Hin. apply mem_In in Hin. rewrite Hin in Hx. discriminate Hx.
Qed.

(** X21. The video plan of the pairing service is the plan of the
    video-only service followed by the three locations of the pairing
    identifier and [Keys:StillImageTime=0]; both commands start with the
    three words [exiftool -overwrite_original -P] and end with the file
    they work on, and both services remux with the same command. *)
Theorem pairing_video_plan_extends_video_only_plan {rt : Runtime}
    (filepath make model date asset_id : str) :
  assignments (DtApp.video_cmd filepath make model date asset_id)
  = assignments (App.metadata_cmd filepath make model date)
    ++ [ (lit "ContentIdentifier", asset_id);
         (lit "Keys:ContentIdentifier", asset_id);
         (lit "com.apple.quicktime.content.identifier", asset_id);
         (lit "Keys:StillImageTime", lit "0") ]
  /\ firstn 3 (argv (DtApp.video_cmd filepath make model date asset_id))
     = [lit "exiftool"; lit "-overwrite_original"; lit "-P"]
  /\ firstn 3 (argv (App.metadata_cmd filepath make model date))
     = [lit "exiftool"; lit "-overwrite_original"; lit "-P"]
  /\ last (argv (DtApp.video_cmd filepath make model date asset_id)) [] = filepath
  /\ last (argv (App.metadata_cmd filepath make model date)) [] = filepath
  /\ DtApp.remux_cmd filepath make = App.remux_cmd filepath make.
Proof. repeat split. Qed.

(** X20. The image plan assigns no tag twice.  In the video plan of
    either service the first four assignments blank the three handler
    names and the encoder, and the assignments after them assign no tag
    twice: only the handler names are written a second time, and the
    encoder stays blank. *)
Theorem plan_tags_assigned_once {rt : Runtime}
    (filepath make model date asset_id
     aperture focal focal35 iso lens width height : str) :
  NoDup (tags_of (DtApp.image_cmd filepath make model date asset_id
                    aperture focal focal35 iso lens width height))
  /\ Forall
       (fun cmd =>
          firstn 4 (assignments cmd)
          = [ (lit "QuickTime:HandlerName", []);
              (lit "QuickTime:VideoHandlerName", []);
              (lit "QuickTime:AudioHandlerName", []);
              (lit "QuickTime:Encoder", []) ]
          /\ NoDup (map fst (skipn 4 (assignments cmd)))
          /\ values_of (lit "QuickTime:Encoder") cmd = [[]])
       [ DtApp.video_cmd filepath make model date asset_id;
         App.metadata_cmd filepath make model date ].
Proof.
  split; [apply distinct_NoDup; reflexivity|].
  constructor; [|constructor; [|constructor]].
  all: split; [reflexivity|split; [apply distinct_NoDup; reflexivity|reflexivity]].
Qed.

(* ================================================================== *)
(** * The working files *)
(* ================================================================== *)

(** X17. The six working files of a pairing request are pairwise
    different, whatever the extensions of the uploads, and so are the two
    of a video-only request; and the files a request derives from its id
    alone (outputs, archive, converted photo) coincide with those of
    another request only if the two ids are the same. *)
Theorem working_paths_do_not_collide {rt : Runtime} (w w' : world)
    (photo_ext video_ext src_ext : str) :
  NoDup [ live_src_photo w photo_ext; live_src_video w video_ext;
          live_converted w; live_out_photo w; live_out_video w; live_out_zip w ]
  /\ video_src w src_ext <> video_out w
  /\ (live_out_zip w = live_out_zip w' -> uuid4_hex w = uuid4_hex w')
  /\ (live_out_photo w = live_out_photo w' -> uuid4_hex w = uuid4_hex w')
  /\ (live_out_video w = live_out_video w' -> uuid4_hex w = uuid4_hex w')
  /\ (live_converted w = live_converted w' -> uuid4_hex w = uuid4_hex w')
  /\ (video_out w = video_out w' -> uuid4_hex w = uuid4_hex w').
Proof.
  split.
  { repeat constructor; cbn [In]; intros H;
      repeat (destruct H as [H|H]; [names_differ H|]); contradiction. }
  split; [intros H; names_differ H|].
  unfold live_converted, live_out_photo, live_out_video, live_out_zip, video_out,
    DtApp.upload_path, App.upload_path.
  repeat split; intros H; do 3 apply app_inv_head in H;
    now apply app_inv_tail in H.
Qed.

(* ================================================================== *)
(** * What the deletion worker does *)
(* ================================================================== *)

Lemma os_remove_In (p q : str) (fs : list str) :
  In q (os_remove p fs) <-> In q fs /\ p <> q.
Proof.
  unfold os_remove. rewrite filter_In, negb_true_iff, str_eqb_neq. tauto.
Qed.

(** The files the worker leaves. *)
Lemma worker_files (paths : list str) :
  forall (remove_error : nat -> option str) (fs : list str) (q : str),
    In q (fst (_worker remove_error paths fs))
    <-> In q fs
        /\ forall i, nth_error paths i = Some q -> remove_error i <> None.
Proof.
  induction paths as [|p rest IH]; intros remove_error fs q.
  - simpl. split; [|tauto]. intros H. split; [exact H|].
    intros [|i] Hi; discriminate Hi.
  - cbn [_worker]. cbv zeta.
    assert (Hshift :
      (forall i, nth_error (p :: rest) i = Some q -> remove_error i <> None)
      <-> (p = q -> remove_error 0 <> None)
          /\ forall i, nth_error rest i = Some q -> remove_error (S i) <> None).
    { split.
      - intros H. split.
        + intros <-. apply (H 0). reflexivity.
        + intros i Hi. apply (H (S i)). exact Hi.
      - intros [H0 HS] [|i] Hi.
        + injection Hi as Hi. now apply H0.
        + now apply HS. }
    rewrite Hshift. clear Hshift.
    destruct (mem p fs) eqn:Em.
    + destruct (remove_error 0) as [msg|] eqn:Er.
      * specialize (IH (fun i => remove_error (S i)) fs q).
        destruct (_worker (fun i => remove_error (S i)) rest fs) as [fs' l].
        cbn [fst] in *. rewrite IH.
        split; [intros [H1 H2]|tauto]. repeat split; try assumption. discriminate.
      * specialize (IH (fun i => remove_error (S i)) (os_remove p fs) q).
        destruct (_worker (fun i => remove_error (S i)) rest (os_remove p fs))
          as [fs' l].
        cbn [fst] in *. rewrite IH, os_remove_In.
        destruct (str_eq_dec p q) as [<-|Hne]; [|tauto].
        split; [tauto|]. intros [_ [H _]]. exfalso. now apply H.
    + rewrite IH.
      assert (Hnot : ~ In p fs).
      { intros Hin. apply mem_In in Hin. congruence. }
      split; [|tauto]. intros [H1 H2]. repeat split; try assumption.
      intros <-. contradiction.
Qed.

(** The removals the worker logs are the files that are gone. *)
Lemma worker_info (paths : list str) :
  forall (remove_error : nat -> option str) (fs : list str) (q : str),
    In (LogInfo q) (snd (_worker remove_error paths fs))
    <-> In q fs /\ ~ In q (fst (_worker remove_error paths fs)).
Proof.
  induction paths as [|p rest IH]; intros remove_error fs q.
  - simpl. tauto.
  - cbn [_worker]. cbv zeta. destruct (mem p fs) eqn:Em.
    + destruct (remove_error 0) as [msg|] eqn:Er.
      * specialize (IH (fun i => remove_error (S i)) fs q).
        destruct (_worker (fun i => remove_error (S i)) rest fs) as [fs' l].
        cbn [fst snd] in *. cbn [In]. rewrite <- IH.
        split; [intros [H|H]; [discriminate H|exact H]|tauto].
      * pose proof (worker_files rest (fun i => remove_error (S i))
                      (os_remove p fs) q) as Hfiles.
        specialize (IH (fun i => remove_error (S i)) (os_remove p fs) q).
        destruct (_worker (fun i => remove_error (S i)) rest (os_remove p fs))
          as [fs' l].
        cbn [fst snd] in *. cbn [In]. rewrite IH, os_remove_In.
        rewrite os_remove_In in Hfiles.
        apply mem_In in Em.
        destruct (str_eq_dec p q) as [<-|Hne].
        -- split; [|intros _; now left].
           intros _. split; [exact Em|]. intros H. apply Hfiles in H. tauto.
        -- split.
           ++ intros [H|H]; [injection H as H; contradiction|tauto].
           ++ tauto.
    + apply IH.
Qed.

(** The failures the worker logs. *)
Lemma worker_warning (paths : list str) :
  forall (remove_error : nat -> option str) (fs : list str) (q m : str),
    In (LogWarning q m) (snd (_worker remove_error paths fs)) ->
    In q fs /\ exists i, nth_error paths i = Some q /\ remove_error i = Some m.
Proof.
  induction paths as [|p rest IH]; intros remove_error fs q m.
  - simpl. tauto.
  - cbn [_worker]. cbv zeta. destruct (mem p fs) eqn:Em.
    + destruct (remove_error 0) as [msg|] eqn:Er.
      * specialize (IH (fun i => remove_error (S i)) fs q m).
        destruct (_worker (fun i => remove_error (S i)) rest fs) as [fs' l].
        cbn [snd] in *. cbn [In]. intros [H|H].
        -- injection H as <- <-. apply mem_In in Em. split; [exact Em|].
           exists 0. split; [reflexivity|exact Er].
        -- destruct (IH H) as [Hf [i [Hi He]]]. split; [exact Hf|].
           exists (S i). split; assumption.
      * specialize (IH (fun i => remove_error (S i)) (os_remove p fs) q m).
        destruct (_worker (fun i => remove_error (S i)) rest (os_remove p fs))
          as [fs' l].
        cbn [snd] in *. cbn [In]. intros [H|H]; [discriminate H|].
        destruct (IH H) as [Hf [i [Hi He]]]. apply os_remove_In in Hf.
        split; [tauto|]. exists (S i). split; assumption.
    + intros H. destruct (IH _ _ _ _ H) as [Hf [i [Hi He]]].
      split; [exact Hf|]. exists (S i). split; assumption.
Qed.

(** Paths that are not there are passed over in silence. *)
Lemma worker_nothing_to_do (paths : list str) :
  forall (remove_error : nat -> option str) (fs : list str),
    (forall p, In p paths -> ~ In p fs) ->
    _worker remove_error paths fs = (fs, []).
Proof.
  induction paths as [|p rest IH]; intros remove_error fs H; [reflexivity|].
  cbn [_worker]. cbv zeta.
  destruct (mem p fs) eqn:Em.
  - apply mem_In in Em. exfalso. apply (H p); [now left|exact Em].
  - apply IH. intros p' Hp'. apply H. now right.
Qed.

(** X22. The worker of [schedule_delete], once its delay is over,
    whatever [os.remove] does at each step.  A file is in the directory
    afterwards exactly when it was there before and every removal the
    loop tried on it failed; so a file that is not among the paths is
    never touched.  The worker logs a removal exactly for the files that
    were there and are gone, a warning only for a listed file at a step
    where its removal raised another [OSError], and nothing at all when
    none of the paths is there ([FileNotFoundError] is passed over).  A
    second run on the same paths, whatever [os.remove] does then, can
    remove and log only a listed file on which every attempt of the first
    run failed; after a first run in which no removal failed, it changes
    nothing and logs nothing. *)
Theorem worker_removes_what_it_can (remove_error : nat -> option str)
    (paths fs : list str) :
  (forall q, In q (fst (_worker remove_error paths fs))
             <-> In q fs
                 /\ forall i, nth_error paths i = Some q -> remove_error i <> None)
  /\ (forall q, ~ In q paths ->
                (In q (fst (_worker remove_error paths fs)) <-> In q fs))
  /\ (forall q, In (LogInfo q) (snd (_worker remove_error paths fs))
                <-> In q fs /\ ~ In q (fst (_worker remove_error paths fs)))
  /\ (forall q m, In (LogWarning q m) (snd (_worker remove_error paths fs))
                  -> In q fs
                     /\ exists i, nth_error paths i = Some q /\ remove_error i = Some m)
  /\ ((forall p, In p paths -> ~ In p fs) ->
      _worker remove_error paths fs = (fs, []))
  /\ (forall again q,
        In (LogInfo q)
          (snd (_worker again paths (fst (_worker remove_error paths fs)))) ->
        In q paths
        /\ forall i, nth_error paths i = Some q -> remove_error i <> None)
  /\ ((forall i, remove_error i = None) ->
      forall again,
        _worker again paths (fst (_worker remove_error paths fs))
        = (fst (_worker remove_error paths fs), [])).
Proof.
  split; [intros q; apply worker_files|].
  split.
  { intros q Hq. rewrite worker_files. split; [tauto|].
    intros H. split; [exact H|]. intros i Hi. exfalso. apply Hq.
    now apply nth_error_In with i. }
  split; [intros q; apply worker_info|].
  split; [intros q m; apply worker_warning|].
  split; [apply worker_nothing_to_do|].
  split.
  - intros again q H. apply worker_info in H. destruct H as [H1 H2].
    apply worker_files in H1. destruct H1 as [Hfs Hfail].
    split; [|exact Hfail].
    destruct (in_dec (list_eq_dec N.eq_dec) q paths) as [Hin|Hout]; [exact Hin|].
    exfalso. apply H2. apply worker_files. split.
    + apply worker_files. split; [exact Hfs|exact Hfail].
    + intros i Hi. exfalso. apply Hout. now apply nth_error_In with i.
  - intros Hok again. apply worker_nothing_to_do.
    intros p Hp Hin. apply worker_files in Hin. destruct Hin as [_ Hfail].
    destruct (In_nth_error paths p Hp) as [i Hi].
    apply (Hfail i Hi). apply Hok.
Qed.

(* ================================================================== *)
(** * The answers of the two services *)
(* ================================================================== *)

Lemma send_file_inj (a b c a' b' c' : str) :
  SendFile a b c = SendFile a' b' c' -> a = a' /\ b = b' /\ c = c'.
Proof. intros H. now injection H. Qed.

Lemma save_inj (a b : str) : Save a = Save b -> a = b.
Proof. intros H. now injection H. Qed.

(** The branch of the validation that has answered refuses the
    request. *)
Ltac refused_live :=
  match goal with
  | E : lookup (lit "photo") _ = None |- _ => left; exact E
  | E : lookup (lit "video") _ = None |- _ => right; left; exact E
  | Ep : lookup (lit "photo") _ = Some ?p, Ev : lookup (lit "video") _ = Some ?v,
    E : negb (truthy (filename ?p)) || negb (truthy (filename ?v)) = true |- _ =>
      exact (live_empty_name_rejected _ p v Ep Ev E)
  | Ep : lookup (lit "photo") _ = Some ?p,
    E : negb (DtApp.allowed_image (filename ?p)) = true |- _ =>
      right; right; left; exists p; split; [exact Ep|now apply negb_true_iff]
  | Ev : lookup (lit "video") _ = Some ?v,
    E : negb (DtApp.allowed_video (filename ?v)) = true |- _ =>
      right; right; right; left; exists v; split; [exact Ev|now apply negb_true_iff]
  | E : missing_keys _ = _ :: _ |- _ => exact (live_missing_field_rejected _ _ _ E)
  end.

Ltac refused_video :=
  match goal with
  | E : lookup (lit "file") _ = None |- _ => left; exact E
  | Ef : lookup (lit "file") _ = Some ?f, E : negb (truthy (filename ?f)) = true |- _ =>
      right; left; exists f; split; [exact Ef|];
      apply negb_true_iff in E; now apply empty_name_not_allowed
  | Ef : lookup (lit "file") _ = Some ?f,
    E : negb (App.allowed_file (filename ?f)) = true |- _ =>
      right; left; exists f; split; [exact Ef|now apply negb_true_iff]
  | E : missing_keys _ = _ :: _ |- _ => exact (video_missing_field_rejected _ _ _ E)
  end.

Lemma live_answers {rt : Runtime} (w : world) (req : request) :
  (status_of (fst (DtApp.serve w req)) = 400%N /\ live_rejected req)
  \/ status_of (fst (DtApp.serve w req)) = 500%N
  \/ status_of (fst (DtApp.serve w req)) = 200%N.
Proof.
  run_served.
  all: cbn [status_of].
  all: first [ right; left; reflexivity | right; right; reflexivity
             | left; split; [reflexivity|refused_live] ].
Qed.

Lemma video_answers {rt : Runtime} (w : world) (req : request) :
  (status_of (fst (App.serve w req)) = 400%N /\ video_rejected req)
  \/ status_of (fst (App.serve w req)) = 500%N
  \/ status_of (fst (App.serve w req)) = 200%N.
Proof.
  run_served.
  all: cbn [status_of].
  all: first [ right; left; reflexivity | right; right; reflexivity
             | left; split; [reflexivity|refused_video] ].
Qed.

(** X1. Either service answers 400 exactly when the request lacks a file
    field, names a file whose extension is not allowed, or leaves a
    required field empty once trimmed: a request that passes these checks
    is never answered 400, whatever happens afterwards.  And the status
    of an answer of a view function is always 200, 400 or 500. *)
Theorem status_400_exactly_when_refused {rt : Runtime} (w : world) (req : request) :
  (status_of (fst (DtApp.serve w req)) = 400%N <-> live_rejected req)
  /\ (status_of (fst (App.serve w req)) = 400%N <-> video_rejected req)
  /\ In (status_of (fst (DtApp.serve w req))) [200%N; 400%N; 500%N]
  /\ In (status_of (fst (App.serve w req))) [200%N; 400%N; 500%N].
Proof.
  pose proof (live_answers w req) as Hl. pose proof (video_answers w req) as Hv.
  split; [|split; [|split]].
  - split.
    + intros H. destruct Hl as [[_ Hr]|[Hs|Hs]]; [exact Hr| |];
        rewrite H in Hs; discriminate Hs.
    + intros H. destruct (live_rejected_400 w req H) as [msg E]. now rewrite E.
  - split.
    + intros H. destruct Hv as [[_ Hr]|[Hs|Hs]]; [exact Hr| |];
        rewrite H in Hs; discriminate Hs.
    + intros H. destruct (video_rejected_400 w req H) as [msg E]. now rewrite E.
  - destruct Hl as [[Hs _]|[Hs|Hs]]; rewrite Hs; simpl; tauto.
  - destruct Hv as [[Hs _]|[Hs|Hs]]; rewrite Hs; simpl; tauto.
Qed.

(** X11. [process_live] takes the extension of a working file from
    [secure_filename(name).rsplit(".", 1)[1]], after validating the name
    the client sent.  When the sanitised name of an accepted upload has
    no dot left, that index fails: the request is answered by the
    [errorhandler(500)] of the application, and nothing has been written
    or scheduled. *)
Theorem live_sanitised_name_without_dot {rt : Runtime} (w : world) (req : request)
    (photo video : FileStorage) :
  lookup (lit "photo") (files req) = Some photo ->
  lookup (lit "video") (files req) = Some video ->
  ~ live_rejected req ->
  nth_error (rsplit_dot (secure_filename (filename photo))) 1 = None
  \/ nth_error (rsplit_dot (secure_filename (filename video))) 1 = None ->
  DtApp.serve w req = (DtApp.err_server, init_state).
Proof.
  intros Hp Hv Hnr [Hx|Hx]; run.
  all: lazymatch goal with
       | |- (DtApp.err_server, _) = _ => reflexivity
       | |- _ => exfalso; apply Hnr; refused_live
       end.
Qed.

(** A video uploaded under the name ".mov". *)
Lemma live_sanitised_name_example :
  DtApp.serve (rt:=example_runtime) calm_world hidden_live_request
  = (DtApp.err_server, init_state).
Proof.
  apply (live_sanitised_name_without_dot (rt:=example_runtime) calm_world
           hidden_live_request
           {| filename := lit "IMG_0001.jpg" |} {| filename := lit ".mov" |}
           eq_refl eq_refl).
  - intros [H|[H|[[f [Hf H]]|[[f [Hf H]]|[H|[H|[H|H]]]]]]];
      try discriminate H;
      apply some_inj in Hf; subst f; discriminate H.
  - right. reflexivity.
Defined.

(** X12. The same in [process_video]: an accepted upload whose sanitised
    name has no dot left is answered by the [errorhandler(500)], and
    nothing has been written or scheduled. *)
Theorem video_sanitised_name_without_dot {rt : Runtime} (w : world) (req : request)
    (file : FileStorage) :
  lookup (lit "file") (files req) = Some file ->
  ~ video_rejected req ->
  nth_error (rsplit_dot (secure_filename (filename file))) 1 = None ->
  App.serve w req = (App.err_server, init_state).
Proof.
  intros Hf Hnr Hx; run.
  all: lazymatch goal with
       | |- (App.err_server, _) = _ => reflexivity
       | |- _ => exfalso; apply Hnr; refused_video
       end.
Qed.

Lemma video_sanitised_name_example :
  App.serve (rt:=example_runtime) calm_world hidden_video_request
  = (App.err_server, init_state).
Proof.
  apply (video_sanitised_name_without_dot (rt:=example_runtime) calm_world
           hidden_video_request {| filename := lit ".mov" |} eq_refl).
  - intros [H|[[f [Hf H]]|[H|[H|H]]]];
      try discriminate H;
      apply some_inj in Hf; subst f; discriminate H.
  - reflexivity.
Defined.

(* ================================================================== *)
(** * The order of the commands *)
(* ================================================================== *)

(** The commands run are the first ones of the pipeline. *)
Ltac first_commands :=
  lazymatch goal with
  | |- exists _ _, prefix_of [] _ \/ _ =>
      exists [], []; right; eexists; cbn [app]; reflexivity
  | |- exists _ _, prefix_of [DtApp.conv_cmd _ _] _ \/ _ =>
      eexists; exists []; left; eexists; cbn [app]; reflexivity
  | |- exists _ _, prefix_of (DtApp.conv_cmd _ _ :: _) _ \/ _ =>
      do 2 eexists; left; eexists; cbn [app]; reflexivity
  | |- exists _ _, prefix_of (DtApp.remux_cmd _ _ :: _) _ \/ _ =>
      exists []; eexists; right; eexists; cbn [app]; reflexivity
  | |- exists _, prefix_of [] _ =>
      exists []; eexists; cbn [app]; reflexivity
  | |- exists _, prefix_of (App.remux_cmd _ _ :: _) _ =>
      do 2 eexists; cbn [app]; reflexivity
  end.

(** The run recorded for the command has exited with code 0. *)
Ltac recorded_exit :=
  lazymatch goal with
  | |- exists so se wr, run_result ?w (argv ?c) = Exited 0 so se wr =>
      match goal with
      | E : run_result w (argv c) = Exited 0%Z _ _ _ |- _ => do 3 eexists; exact E
      end
  end.

(** A command followed by another one has exited with code 0. *)
Ltac exited_zero :=
  let i := fresh "i" in
  let c := fresh "c" in
  let c' := fresh "c" in
  let H1 := fresh "H" in
  let H2 := fresh "H" in
  intros i c c' H1 H2;
  do 4 (destruct i as [|i];
        [cbn [nth_error] in H1, H2;
         first [discriminate H2 | apply some_inj in H1; subst c; recorded_exit]|]);
  cbn [nth_error] in H2; discriminate H2.

(** X2. The commands a pairing request runs are, in this order, a
    beginning of: the conversion of the photo (when there is one), the
    remux, the exiftool command of the image, the exiftool command of the
    video.  No command is run twice, and a command is followed by another
    one only when it has exited with code 0: the first failure ends the
    pipeline. *)
Theorem pairing_pipeline_is_linear {rt : Runtime} (w : world) (req : request) :
  (exists photo_ext video_ext,
     prefix_of (runs (trace (snd (DtApp.serve w req))))
       [ DtApp.conv_cmd (live_src_photo w photo_ext) (live_converted w);
         DtApp.remux_cmd (live_src_video w video_ext) (live_out_video w);
         live_image_cmd w req; live_video_cmd w req ]
     \/ prefix_of (runs (trace (snd (DtApp.serve w req))))
          [ DtApp.remux_cmd (live_src_video w video_ext) (live_out_video w);
            live_image_cmd w req; live_video_cmd w req ])
  /\ (forall i c c',
        nth_error (runs (trace (snd (DtApp.serve w req)))) i = Some c ->
        nth_error (runs (trace (snd (DtApp.serve w req)))) (S i) = Some c' ->
        exists so se wr, run_result w (argv c) = Exited 0 so se wr).
Proof.
  run_served.
  all: zero_returncodes.
  all: unfold trace; cbn [snd log rev app runs].
  all: split; [first_commands|exited_zero].
Qed.

(** X3. The commands a video-only request runs are a beginning of: the
    remux, the exiftool command; the exiftool command is run only when
    the remux has exited with code 0. *)
Theorem video_pipeline_is_linear {rt : Runtime} (w : world) (req : request) :
  (exists src_ext,
     prefix_of (runs (trace (snd (App.serve w req))))
       [ App.remux_cmd (video_src w src_ext) (video_out w);
         video_metadata_cmd w req ])
  /\ (forall i c c',
        nth_error (runs (trace (snd (App.serve w req)))) i = Some c ->
        nth_error (runs (trace (snd (App.serve w req)))) (S i) = Some c' ->
        exists so se wr, run_result w (argv c) = Exited 0 so se wr).
Proof.
  run_served.
  all: zero_returncodes.
  all: unfold trace; cbn [snd log rev app runs].
  all: split; [first_commands|exited_zero].
Qed.

(** Every command [process_video] runs is the remux or the exiftool
    command of the request. *)
Lemma video_runs {rt : Runtime} (w : world) (req : request) (cmd : list arg) (t : N) :
  In (Run cmd t) (trace (snd (App.serve w req))) ->
  (exists ext, cmd = App.remux_cmd (video_src w ext) (video_out w) /\ t = 300%N)
  \/ (cmd = video_metadata_cmd w req /\ t = 60%N).
Proof.
  run.
  all: unfold trace; cbn [log rev app In]; intros H.
  all: repeat (destruct H as [H|H]; [try discriminate H|]); try contradiction.
  all: apply run_inj in H; destruct H as [<- <-].
  all: lazymatch goal with
       | |- (exists _, App.remux_cmd _ _ = _ /\ _) \/ _ =>
           left; eexists; split; reflexivity
       | |- (exists _, App.metadata_cmd _ _ _ _ = _ /\ _) \/ _ =>
           right; split; reflexivity
       end.
Qed.

Lemma video_run_validated {rt : Runtime} (w : world) (req : request) (e : event) :
  In e (trace (snd (App.serve w req))) -> ~ video_rejected req.
Proof.
  intros H Hrej. destruct (video_rejected_400 w req Hrej) as [msg E].
  rewrite E in H. exact H.
Qed.

(** X4. The services run nothing but the commands of their pipelines,
    on the working files of the request: in the pairing service the
    conversion and the two exiftool commands with a timeout of 60
    seconds and the remux with one of 300 seconds, in the video-only
    service the remux with 300 and the exiftool command with 60
    seconds. *)
Theorem only_the_pipeline_commands_run {rt : Runtime} (w : world) (req : request)
    (cmd : list arg) (t : N) :
  (In (Run cmd t) (trace (snd (DtApp.serve w req))) ->
   (exists ext,
      cmd = DtApp.conv_cmd (live_src_photo w ext) (live_converted w) /\ t = 60%N)
   \/ (exists ext,
         cmd = DtApp.remux_cmd (live_src_video w ext) (live_out_video w) /\ t = 300%N)
   \/ (cmd = live_image_cmd w req /\ t = 60%N)
   \/ (cmd = live_video_cmd w req /\ t = 60%N))
  /\ (In (Run cmd t) (trace (snd (App.serve w req))) ->
      (exists ext, cmd = App.remux_cmd (video_src w ext) (video_out w) /\ t = 300%N)
      \/ (cmd = video_metadata_cmd w req /\ t = 60%N)).
Proof.
  split; [exact (live_runs w req cmd t)|exact (video_runs w req cmd t)].
Qed.

(* ================================================================== *)
(** * Delivery and retention *)
(* ================================================================== *)

Lemma exists_now_on_disk (w : world) (st : state) (p : str) :
  exists_now w st p = true -> In p (disk st).
Proof.
  unfold exists_now. intros H. apply andb_true_iff in H as [H _].
  now apply mem_In.
Qed.

(** [os.path.getsize] has found the file, and nothing is taken from the
    record of the files the request has written. *)
Ltac still_on_disk :=
  match goal with
  | E : exists_now ?w ?st ?p = true |- In ?p _ =>
      apply exists_now_on_disk in E; cbn [disk] in E;
      repeat first [exact E | apply in_cons_if_tail | right]
  end.

(** The [finally] of step 5 saw that the photo it worked on was gone. *)
Ltac scheduled_earlier :=
  match goal with
  | E : negb (str_eqb ?p ?q) && exists_now ?w ?st ?p = false
    |- deletion_scheduled ?p ?l =>
      let Hne := fresh "Hne" in
      assert (Hne : str_eqb p q = false)
        by (apply str_eqb_neq; let Hx := fresh "Hx" in intros Hx; names_differ Hx);
      rewrite Hne in E; cbn [negb andb] in E;
      apply (deletion_scheduled_incl p (log st) l);
      [cbn [log]; suffix_incl
      |apply (not_existing_was_scheduled w st p); [on_disk | exact E]]
  end.

(** Every file on disk other than the one sent was scheduled. *)
Ltac others_scheduled :=
  let p := fresh "p" in
  let Hp := fresh "Hp" in
  let Hne := fresh "Hne" in
  intros p Hp Hne; cbn [snd disk] in Hp;
  unfold trace; cbn [snd log]; apply deletion_scheduled_rev;
  repeat first
    [ apply in_cons_if_inv in Hp; destruct Hp as [[-> Hp]|Hp];
      [subst p; first [scheduled_directly | scheduled_earlier
                      | exfalso; apply Hne; reflexivity]|]
    | destruct Hp as [Hp|Hp];
      [subst p; first [scheduled_directly | scheduled_earlier
                      | exfalso; apply Hne; reflexivity]|] ];
  contradiction.

(** No deletion without delay names the file. *)
Ltac never_scheduled :=
  let ps := fresh "ps" in
  let Hin := fresh "Hin" in
  let Hp := fresh "Hp" in
  intros [ps [Hin Hp]]; unfold trace in Hin; cbn [snd log] in Hin;
  apply in_rev in Hin; cbn [In] in Hin;
  repeat (destruct Hin as [Hin|Hin];
          [first [ discriminate Hin
                 | apply schedule_inj in Hin; destruct Hin as [<- _];
                   cbn [In] in Hp;
                   repeat (destruct Hp as [Hp|Hp]; [names_differ Hp|]);
                   contradiction ]|]);
  contradiction.

(** X5. When [process_live] answers with a file, the file is the archive
    of the request, sent as [application/zip] under the name
    [LivePhoto_] + the first eight characters of the request id +
    [.zip], and it is on disk.  The last two effects of the request are
    the deferred deletions: the two outputs without delay, the archive
    after [CLEANUP_DELAY_SEC].  No deletion without delay names the
    archive, and every other file the request has written is scheduled
    for deletion without delay. *)
Theorem archive_sent_and_retained {rt : Runtime} (w : world) (req : request)
    (path mime name : str) :
  fst (DtApp.serve w req) = SendFile path mime name ->
  path = live_out_zip w
  /\ mime = lit "application/zip"
  /\ name = lit "LivePhoto_" ++ first_chars 8 (uuid4_hex w) ++ lit ".zip"
  /\ In path (disk (snd (DtApp.serve w req)))
  /\ (exists before,
        trace (snd (DtApp.serve w req))
        = before ++ [ ScheduleDelete [live_out_photo w; live_out_video w] 0;
                      ScheduleDelete [live_out_zip w] DtApp.CLEANUP_DELAY_SEC ])
  /\ ~ deletion_scheduled path (trace (snd (DtApp.serve w req)))
  /\ (forall p, In p (disk (snd (DtApp.serve w req))) -> p <> path ->
                deletion_scheduled p (trace (snd (DtApp.serve w req)))).
Proof.
  run_served.
  all: intro H; first [discriminate H | apply send_file_inj in H].
  all: destruct H as [<- [<- <-]].
  all: split; [reflexivity|]; split; [reflexivity|]; split; [reflexivity|].
  all: split; [cbn [snd disk]; in_list|].
  all: split;
       [unfold trace; cbn [snd log];
        match goal with
        | |- exists _, rev (?a :: ?b :: ?rest) = _ =>
            exists (rev rest); cbn [rev]; rewrite <- app_assoc; reflexivity
        end|].
  all: split; [never_scheduled|others_scheduled].
Qed.

(** The scenario of the specification: the archive is not scheduled for
    deletion without delay. *)
Lemma archive_retained_example :
  ~ deletion_scheduled (live_out_zip (rt:=example_runtime) calm_world)
      (trace (snd (DtApp.serve (rt:=example_runtime) calm_world example_live_request))).
Proof.
  exact (proj1 (proj2 (proj2 (proj2 (proj2 (proj2
           (archive_sent_and_retained (rt:=example_runtime) calm_world
              example_live_request
              (live_out_zip (rt:=example_runtime) calm_world)
              (lit "application/zip") (lit "LivePhoto_01234567.zip")
              ltac:(vm_compute; reflexivity)))))))).
Defined.

(** X6. When [process_video] answers with a file, the file is the output
    of the request, sent as [video/quicktime] under the name
    [processed_] + the request id + [.mov], it is on disk, and the
    effects of the request are exactly: saving the upload, the remux, the
    deletion of the upload without delay, the exiftool command, the
    deletion of the output after [CLEANUP_DELAY_SEC]. *)
Theorem video_sent_and_retained {rt : Runtime} (w : world) (req : request)
    (path mime name : str) :
  fst (App.serve w req) = SendFile path mime name ->
  path = video_out w
  /\ mime = lit "video/quicktime"
  /\ name = lit "processed_" ++ uuid4_hex w ++ lit ".mov"
  /\ In path (disk (snd (App.serve w req)))
  /\ exists src_ext,
       trace (snd (App.serve w req))
       = [ Save (video_src w src_ext);
           Run (App.remux_cmd (video_src w src_ext) (video_out w)) 300;
           ScheduleDelete [video_src w src_ext] 0;
           Run (video_metadata_cmd w req) 60;
           ScheduleDelete [video_out w] App.CLEANUP_DELAY_SEC ].
Proof.
  run_served.
  all: intro H; first [discriminate H | apply send_file_inj in H].
  all: destruct H as [<- [<- <-]].
  all: split; [reflexivity|]; split; [reflexivity|]; split; [reflexivity|].
  all: split; [cbn [snd disk]; still_on_disk|].
  all: eexists; unfold trace; cbn [snd log rev app]; reflexivity.
Qed.

Lemma video_retained_example :
  In (video_out (rt:=example_runtime) calm_world)
    (disk (snd (App.serve (rt:=example_runtime) calm_world example_video_request))).
Proof.
  exact (proj1 (proj2 (proj2 (proj2
           (video_sent_and_retained (rt:=example_runtime) calm_world
              example_video_request
              (video_out (rt:=example_runtime) calm_world)
              (lit "video/quicktime")
              (lit "processed_0123456789abcdef0123456789abcdef.mov")
              ltac:(vm_compute; reflexivity)))))).
Defined.

(* ================================================================== *)
(** * The failures the handlers catch *)
(* ================================================================== *)

(** X7. Every 500 that [process_live] returns itself, that is every 500
    other than the answer of the [errorhandler(500)], comes after
    [cleanup_all]: every file the request has written is scheduled for
    deletion without delay.  This holds for the failures of the tools
    and for those of saving the uploads and writing the archive
    alike. *)
Theorem handled_failure_cleans_up {rt : Runtime} (w : world) (req : request)
    (msg : str) :
  fst (DtApp.serve w req) = JsonError msg 500 ->
  fst (DtApp.serve w req) <> DtApp.err_server ->
  forall p, In p (disk (snd (DtApp.serve w req))) ->
            deletion_scheduled p (trace (snd (DtApp.serve w req))).
Proof.
  run_served.
  all: lazymatch goal with
       | |- DtApp.err_server = _ -> _ =>
           intros _ Hne; exfalso; apply Hne; reflexivity
       | |- SendFile _ _ _ = _ -> _ => intros H; discriminate H
       | |- JsonError _ 400%N = _ -> _ => intros H; discriminate H
       | |- _ => intros _ _; all_scheduled
       end.
Qed.

(** The remux that exits with code 1: the partial output it has left is
    scheduled for deletion. *)
Lemma handled_failure_example :
  deletion_scheduled (live_out_video (rt:=example_runtime) broken_world)
    (trace (snd (DtApp.serve (rt:=example_runtime) broken_world example_live_request))).
Proof.
  exact (handled_failure_cleans_up (rt:=example_runtime) broken_world
           example_live_request
           (lit "FFmpeg 重封装失败：moov atom not found")
           ltac:(vm_compute; reflexivity)
           ltac:(vm_compute; discriminate)
           (live_out_video (rt:=example_runtime) broken_world)
           ltac:(vm_compute; tauto)).
Defined.

(** The outcome recorded for the save is the one of the hypothesis. *)
Ltac other_save H :=
  match type of H with
  | save_result ?w ?a = _ =>
      match goal with
      | E : save_result w a = _ |- _ =>
          tryif constr_eq E H then fail else rewrite E in H
      end
  end.

(** X8. When saving an upload of a pairing request fails, the answer is
    a 500 whose message is the fixed prefix followed by the text of the
    error, and no command has been run. *)
Theorem pairing_save_failure {rt : Runtime} (w : world) (req : request)
    (p msg : str) (lf : bool) :
  save_result w p = IoError msg lf ->
  In (Save p) (trace (snd (DtApp.serve w req))) ->
  fst (DtApp.serve w req) = JsonError (lit "文件保存失败：" ++ msg) 500
  /\ runs (trace (snd (DtApp.serve w req))) = [].
Proof.
  intros Hs. run_served.
  all: unfold trace; cbn [snd log]; intros H; apply in_rev in H; cbn [In] in H.
  all: repeat (destruct H as [H|H]; [try discriminate H|]); try contradiction.
  all: apply save_inj in H; subst p; other_save Hs.
  all: first [discriminate Hs | injection Hs as <- <-].
  all: cbn [str_exn rev app runs]; split; reflexivity.
Qed.

Lemma pairing_save_failure_example :
  fst (DtApp.serve (rt:=example_runtime) full_disk_world example_live_request)
  = JsonError (lit "文件保存失败：" ++ lit "[Errno 28] No space left on device") 500
  /\ runs (trace (snd (DtApp.serve (rt:=example_runtime) full_disk_world
                         example_live_request))) = [].
Proof.
  exact (pairing_save_failure (rt:=example_runtime) full_disk_world
           example_live_request
           (live_src_photo (rt:=example_runtime) full_disk_world (lit "png"))
           (lit "[Errno 28] No space left on device") true eq_refl
           ltac:(vm_compute; tauto)).
Defined.

(** X9. When saving the upload of a video-only request fails, the answer
    is a 500 with the same kind of message, and the attempt to save is
    the only effect of the request: no deletion is scheduled, so that a
    partial file the failed save has left stays on disk. *)
Theorem video_save_failure_leaves_upload {rt : Runtime} (w : world) (req : request)
    (p msg : str) (lf : bool) :
  save_result w p = IoError msg lf ->
  In (Save p) (trace (snd (App.serve w req))) ->
  fst (App.serve w req) = JsonError (lit "文件保存失败：" ++ msg) 500
  /\ trace (snd (App.serve w req)) = [Save p]
  /\ disk (snd (App.serve w req)) = cons_if lf p [].
Proof.
  intros Hs. run_served.
  all: unfold trace; cbn [snd log disk]; intros H; apply in_rev in H; cbn [In] in H.
  all: repeat (destruct H as [H|H]; [try discriminate H|]); try contradiction.
  all: apply save_inj in H; subst p; other_save Hs.
  all: first [discriminate Hs | injection Hs as <- <-].
  all: cbn [str_exn rev app]; repeat split; reflexivity.
Qed.

Lemma video_save_failure_example :
  fst (App.serve (rt:=example_runtime) full_disk_world example_video_request)
  = JsonError (lit "文件保存失败：" ++ lit "[Errno 28] No space left on device") 500
  /\ trace (snd (App.serve (rt:=example_runtime) full_disk_world example_video_request))
     = [Save (video_src (rt:=example_runtime) full_disk_world (lit "mp4"))]
  /\ disk (snd (App.serve (rt:=example_runtime) full_disk_world example_video_request))
     = cons_if true (video_src (rt:=example_runtime) full_disk_world (lit "mp4")) [].
Proof.
  exact (video_save_failure_leaves_upload (rt:=example_runtime) full_disk_world
           example_video_request
           (video_src (rt:=example_runtime) full_disk_world (lit "mp4"))
           (lit "[Errno 28] No space left on device") true eq_refl
           ltac:(vm_compute; tauto)).
Defined.

(** X10. When both exiftool commands of a pairing request have
    succeeded and the archive cannot be written, the answer is a 500
    whose message is the fixed prefix followed by the text of the error,
    and no archive has been finished. *)
Theorem archive_failure {rt : Runtime} (w : world) (req : request)
    (msg : str) (lf : bool) :
  zip_result w (live_out_zip w) = IoError msg lf ->
  In (Run (live_video_cmd w req) 60) (trace (snd (DtApp.serve w req))) ->
  (exists so se wr, run_result w (argv (live_video_cmd w req)) = Exited 0 so se wr) ->
  fst (DtApp.serve w req) = JsonError (lit "ZIP 打包失败：" ++ msg) 500
  /\ archives (trace (snd (DtApp.serve w req))) = [].
Proof.
  unfold live_out_zip, live_video_cmd, live_out_video, live_make, live_model,
    live_date, live_asset_id.
  intros Hz. run_served.
  all: unfold trace at 1; cbn [snd log]; intros H [so [se [wr Hr]]];
       apply in_rev in H.
  all: first [ no_such_run H | idtac ].
  all: first [ discriminate Hr | injection Hr as -> _ _ _ ].
  all: clear H.
  all: lazymatch goal with
       | Hn : negb (0 =? 0)%Z = true |- _ => discriminate Hn
       | |- _ => idtac
       end.
  all: cbn [str_exn]; unfold trace; cbn [snd log rev app archives]; split; reflexivity.
Qed.

Lemma archive_failure_example :
  fst (DtApp.serve (rt:=example_runtime) no_archive_world example_live_request)
  = JsonError (lit "ZIP 打包失败：" ++ lit "[Errno 13] Permission denied") 500
  /\ archives (trace (snd (DtApp.serve (rt:=example_runtime) no_archive_world
                             example_live_request))) = [].
Proof.
  exact (archive_failure (rt:=example_runtime) no_archive_world example_live_request
           (lit "[Errno 13] Permission denied") false eq_refl
           ltac:(vm_compute; tauto)
           ltac:(exists [], [], true; reflexivity)).
Defined.

(* ================================================================== *)
(** * The required values in the commands *)
(* ================================================================== *)

(** The entry is one of the plan, and its value one of the request. *)
Ltac required_value Hin Hreq :=
  cbn [assignments In] in Hin;
  repeat (destruct Hin as [Hin|Hin];
          [apply pair_inj in Hin; destruct Hin as [<- <-];
           first [ vm_compute in Hreq; discriminate Hreq
                 | split; [assumption|];
                   let Hid := fresh "Hid" in
                   intros Hid;
                   first [ vm_compute in Hid; discriminate Hid
                         | apply strip_idempotent ] ]|]);
  contradiction.

(** X13. No command of a pairing request writes an empty make, model,
    date or pairing identifier: every value assigned to a tag whose field
    is Make or Model, is a date, or is an identifier is non-empty, and
    the values of make, model and date are trimmed (stripping them again
    changes nothing). *)
Theorem pairing_required_values_present {rt : Runtime} (w : world) (req : request)
    (cmd : list arg) (t : N) (tag v : str) :
  In (Run cmd t) (trace (snd (DtApp.serve w req))) ->
  In (tag, v) (assignments cmd) ->
  required_tag tag = true ->
  v <> [] /\ (identity_tag tag = true -> strip v = v).
Proof.
  intros Hrun Hin Hreq.
  pose proof (live_run_validated w req _ Hrun) as Hv.
  assert (Hmk : strip (form_get req (lit "make") []) <> [])
    by (intros E; apply Hv; unfold live_rejected; tauto).
  assert (Hmd : strip (form_get req (lit "model") []) <> [])
    by (intros E; apply Hv; unfold live_rejected; tauto).
  assert (Hdt : strip (form_get req (lit "date") []) <> [])
    by (intros E; apply Hv; unfold live_rejected; tauto).
  assert (Hid : str_upper (strip (form_get req (lit "asset_id") [])) <> []).
  { intros E. apply (proj1 (str_upper_empty _)) in E.
    apply Hv; unfold live_rejected; tauto. }
  clear Hv.
  destruct (live_runs w req cmd t Hrun) as [[ext [-> _]]|[[ext [-> _]]|[[-> _]|[-> _]]]];
    clear Hrun.
  - exfalso. exact Hin.
  - exfalso. exact Hin.
  - unfold live_image_cmd, DtApp.image_cmd, live_make, live_model, live_date,
      live_asset_id in Hin.
    required_value Hin Hreq.
  - unfold live_video_cmd, DtApp.video_cmd, live_make, live_model, live_date,
      live_asset_id in Hin.
    required_value Hin Hreq.
Qed.

Lemma pairing_required_values_example :
  lit "Apple" <> []
  /\ (identity_tag (lit "Make") = true -> strip (lit "Apple") = lit "Apple").
Proof.
  exact (pairing_required_values_present (rt:=example_runtime) calm_world
           example_live_request
           (live_image_cmd (rt:=example_runtime) calm_world example_live_request)
           60 (lit "Make") (lit "Apple")
           ltac:(vm_compute; tauto) ltac:(vm_compute; tauto) eq_refl).
Defined.

(** X14. The same for the video-only service: the exiftool command it
    runs assigns a non-empty, trimmed value to every Make, Model and date
    tag. *)
Theorem video_required_values_present {rt : Runtime} (w : world) (req : request)
    (cmd : list arg) (t : N) (tag v : str) :
  In (Run cmd t) (trace (snd (App.serve w req))) ->
  In (tag, v) (assignments cmd) ->
  required_tag tag = true ->
  v <> [] /\ (identity_tag tag = true -> strip v = v).
Proof.
  intros Hrun Hin Hreq.
  pose proof (video_run_validated w req _ Hrun) as Hv.
  assert (Hmk : strip (form_get req (lit "make") []) <> [])
    by (intros E; apply Hv; unfold video_rejected; tauto).
  assert (Hmd : strip (form_get req (lit "model") []) <> [])
    by (intros E; apply Hv; unfold video_rejected; tauto).
  assert (Hdt : strip (form_get req (lit "date") []) <> [])
    by (intros E; apply Hv; unfold video_rejected; tauto).
  clear Hv.
  destruct (video_runs w req cmd t Hrun) as [[ext [-> _]]|[-> _]]; clear Hrun.
  - exfalso. exact Hin.
  - unfold video_metadata_cmd, App.metadata_cmd in Hin.
    required_value Hin Hreq.
Qed.

Lemma video_required_values_example :
  lit "iPhone 17 Pro Max" <> []
  /\ (identity_tag (lit "Keys:Model") = true
      -> strip (lit "iPhone 17 Pro Max") = lit "iPhone 17 Pro Max").
Proof.
  exact (video_required_values_present (rt:=example_runtime) calm_world
           example_video_request
           (video_metadata_cmd (rt:=example_runtime) calm_world example_video_request)
           60 (lit "Keys:Model") (lit "iPhone 17 Pro Max")
           ltac:(vm_compute; tauto) ltac:(vm_compute; tauto) eq_refl).
Defined.

(* ================================================================== *)
(** * A request touches its own files only *)
(* ================================================================== *)








